(** * Inventory management system: product variants, the store, and JSON
      persistence, embedded from [src/models] and [src/exceptions].

    Conventions of the embedding.
    - Python [int] is [Z]; Python [float] is the kernel's binary64 [float];
      Python [str] is [string] (ASCII text).
    - A method that mutates [self] is a function from the receiver to the
      receiver after the call paired with what the call returned or raised,
      so the state left behind by a call that raises is visible.
    - A [dict] keyed by product id keeps insertion order, so the store is a
      list of (key, product) pairs; a JSON object is a finite map.
    - Built-ins of Python and of [dateutil] whose text is not part of the
      repository ([float] and [int] of a string, [repr] of a float, the date
      parser) are fields of the class [Builtins].
    - The clock is an argument: the date [datetime.now().date()] returns.
    - A file is what [json.load] makes of it: a JSON document, or text that
      is not JSON. *)

From Stdlib Require Import ZArith Ascii String PrimFloat FloatOps SpecFloat.
From stdpp Require Import base tactics option list gmap strings pretty.

Set Warnings "-register-all".
Local Open Scope string_scope.
Local Open Scope list_scope.
Local Open Scope Z_scope.

(** ** Exceptions ([src/exceptions/custom_exceptions.py] and the built-in
       ones the code meets) *)

Inductive exn : Type :=
| ValueError (msg : string)
| TypeError (msg : string)
| AttributeError (msg : string)
| OverflowError (msg : string)
| OSError (msg : string)
| JSONDecodeError (msg : string)
| InsufficientStockError (product_id : string) (requested available : Z)
| DuplicateProductError (product_id : string)
| ProductNotFoundError (product_id : string)
| InvalidProductDataError (message : string)
| InvalidProductTypeError (product_type : string).

(** [str(e)]: the message each [__init__] hands to [Exception.__init__]. *)
Definition exn_str (e : exn) : string :=
  match e with
  | ValueError msg | TypeError msg | AttributeError msg
  | OverflowError msg | OSError msg | JSONDecodeError msg => msg
  | InsufficientStockError product_id requested available =>
      "Insufficient stock for product " +:+ product_id +:+ ". " +:+
      "Requested: " +:+ pretty requested +:+ ", Available: " +:+ pretty available
  | DuplicateProductError product_id =>
      "Product with ID " +:+ product_id +:+ " already exists in inventory"
  | ProductNotFoundError product_id =>
      "Product with ID " +:+ product_id +:+ " not found in inventory"
  | InvalidProductDataError message => "Invalid product data: " +:+ message
  | InvalidProductTypeError product_type => "Invalid product type: " +:+ product_type
  end.

(** The result of running a piece of code: a value, an exception, or
    [Untyped] when a parameter annotated [str] received a value that is not a
    string. Python would carry on with an object outside the annotated types;
    the embedding does not follow such a run any further. *)
Inductive outcome (A : Type) : Type :=
| Ret (a : A)
| Raise (e : exn)
| Untyped.
Arguments Ret {A} a.
Arguments Raise {A} e.
Arguments Untyped {A}.

#[global] Instance outcome_ret : MRet outcome := @Ret.
#[global] Instance outcome_bind : MBind outcome := λ A B k m,
  match m with
  | Ret a => k a
  | Raise e => Raise e
  | Untyped => Untyped
  end.
#[global] Instance outcome_fmap : FMap outcome := λ A B f m,
  match m with
  | Ret a => Ret (f a)
  | Raise e => Raise e
  | Untyped => Untyped
  end.

(** [try: body / except Exception as e: handler e]. *)
Definition try_except {A} (body : outcome A) (handler : exn → outcome A) : outcome A :=
  match body with
  | Ret a => Ret a
  | Raise e => handler e
  | Untyped => Untyped
  end.

(** A method with receiver of type [S]: the receiver after the call and the
    result of the call. *)
Definition method (S A : Type) : Type := S → S * outcome A.

(** ** Numbers *)

(** Conversion of an [int] to a [float], as [float * int] and [float(int)]
    perform it: round to nearest even, [OverflowError] beyond the range. *)
Definition float_of_int (n : Z) : outcome float :=
  let f := SF2Prim (binary_normalize prec emax n 0 false) in
  if PrimFloat.is_infinity f
  then Raise (OverflowError "int too large to convert to float")
  else Ret f.

(** [x * n] for a float [x] and an int [n]. *)
Definition float_mul_int (x : float) (n : Z) : outcome float :=
  f ← float_of_int n; Ret (PrimFloat.mul x f).

(** [int(f)] for a float: truncation towards zero. *)
Definition int_of_float (f : float) : outcome Z :=
  match Prim2SF f with
  | S754_zero _ => Ret 0
  | S754_infinity _ => Raise (OverflowError "cannot convert float infinity to integer")
  | S754_nan => Raise (ValueError "cannot convert float NaN to integer")
  | S754_finite s m e =>
      let v := if 0 <=? e then Z.pos m * 2 ^ e else Z.pos m / 2 ^ (- e) in
      Ret (if s then - v else v)
  end.

(** ** Calendar dates ([datetime.date]) *)

Record date : Type := Date { year : Z; month : Z; day : Z }.

Definition is_leap (y : Z) : bool :=
  (y mod 4 =? 0) && (negb (y mod 100 =? 0) || (y mod 400 =? 0)).

Definition days_in_month (y m : Z) : Z :=
  if m =? 2 then (if is_leap y then 29 else 28)
  else if (m =? 4) || (m =? 6) || (m =? 9) || (m =? 11) then 30 else 31.

(** The dates a [datetime.date] object can hold. *)
Definition valid_date (d : date) : bool :=
  (1 <=? year d) && (year d <=? 9999) &&
  (1 <=? month d) && (month d <=? 12) &&
  (1 <=? day d) && (day d <=? days_in_month (year d) (month d)).

(** [a > b] on dates: year, then month, then day. *)
Definition date_gt (a b : date) : bool :=
  (year b <? year a) ||
  ((year a =? year b) &&
   ((month b <? month a) || ((month a =? month b) && (day b <? day a)))).

Definition digit (n : Z) : ascii := ascii_of_nat (48 + Z.to_nat (n mod 10)).

Definition digits2 (n : Z) : string :=
  String (digit (n / 10)) (String (digit n) EmptyString).

Definition digits4 (n : Z) : string :=
  String (digit (n / 1000)) (String (digit (n / 100)) (digits2 n)).

(** [date.isoformat()]: [YYYY-MM-DD], zero padded. *)
Definition isoformat (d : date) : string :=
  digits4 (year d) +:+ "-" +:+ digits2 (month d) +:+ "-" +:+ digits2 (day d).

(** ** Python values as [json.load] returns them *)

Inductive pyval : Type :=
| PNone
| PBool (b : bool)
| PInt (n : Z)
| PFloat (f : float)
| PStr (s : string)
| PList (items : list pyval)
| PDict (entries : gmap string pyval).

(** The type name CPython prints in its messages. *)
Definition type_name (v : pyval) : string :=
  match v with
  | PNone => "NoneType"
  | PBool _ => "bool"
  | PInt _ => "int"
  | PFloat _ => "float"
  | PStr _ => "str"
  | PList _ => "list"
  | PDict _ => "dict"
  end.

(** The built-ins whose text lies outside the repository. *)
Class Builtins : Type := {
  float_of_str : string → outcome float;   (* float(s) for a str *)
  int_of_str : string → outcome Z;         (* int(s) for a str *)
  float_repr : float → string;             (* repr(f), also str(f) *)
  dateutil_parse : string → outcome date   (* dateutil.parser.parse(s).date() *)
}.

(** [float(v)]. *)
Definition py_float {B : Builtins} (v : pyval) : outcome float :=
  match v with
  | PFloat f => Ret f
  | PInt n => float_of_int n
  | PBool b => Ret (if b then 1%float else 0%float)
  | PStr s => float_of_str s
  | _ => Raise (TypeError ("float() argument must be a string or a real number, not '"
                           +:+ type_name v +:+ "'"))
  end.

(** [int(v)]. *)
Definition py_int {B : Builtins} (v : pyval) : outcome Z :=
  match v with
  | PInt n => Ret n
  | PBool b => Ret (if b then 1 else 0)
  | PFloat f => int_of_float f
  | PStr s => int_of_str s
  | _ => Raise (TypeError ("int() argument must be a string, a bytes-like object or a real number, not '"
                           +:+ type_name v +:+ "'"))
  end.

(** [str(v)] for the values that can be hashed (the others are not
    formatted by the code). *)
Definition py_str {B : Builtins} (v : pyval) : string :=
  match v with
  | PNone => "None"
  | PBool b => if b then "True" else "False"
  | PInt n => pretty n
  | PFloat f => float_repr f
  | PStr s => s
  | PList _ => "[...]"
  | PDict _ => "{...}"
  end.

(** A parameter annotated [str]: the string, or [Untyped]. *)
Definition as_str (v : pyval) : outcome string :=
  match v with
  | PStr s => Ret s
  | _ => Untyped
  end.

(** ** Products ([src/models/product.py] and the three subclasses) *)

(** The attributes [Product.__init__] sets. *)
Record Common : Type := {
  _product_id : string;
  _name : string;
  _price : float;
  _quantity_in_stock : Z
}.

(** An object of one of the three concrete classes. *)
Inductive Product : Type :=
| Electronics (common : Common) (_warranty_years : Z) (_brand : string)
| Grocery (common : Common) (_expiry_date : date)
| Clothing (common : Common) (_size _material : string).

Definition common (self : Product) : Common :=
  match self with
  | Electronics c _ _ | Grocery c _ | Clothing c _ _ => c
  end.

Definition with_common (self : Product) (c : Common) : Product :=
  match self with
  | Electronics _ w b => Electronics c w b
  | Grocery _ d => Grocery c d
  | Clothing _ s m => Clothing c s m
  end.

(** The read-only properties. *)
Definition product_id (self : Product) : string := _product_id (common self).
Definition name (self : Product) : string := _name (common self).
Definition price (self : Product) : float := _price (common self).
Definition quantity_in_stock (self : Product) : Z := _quantity_in_stock (common self).

(** [self.__class__.__name__]. *)
Definition class_name (self : Product) : string :=
  match self with
  | Electronics _ _ _ => "Electronics"
  | Grocery _ _ => "Grocery"
  | Clothing _ _ _ => "Clothing"
  end.

(** [self._price = v] and [self._quantity_in_stock = v]. *)
Definition assign_price (v : float) (self : Product) : Product :=
  let c := common self in
  with_common self {| _product_id := _product_id c; _name := _name c;
                      _price := v; _quantity_in_stock := _quantity_in_stock c |}.

Definition assign_quantity_in_stock (v : Z) (self : Product) : Product :=
  let c := common self in
  with_common self {| _product_id := _product_id c; _name := _name c;
                      _price := _price c; _quantity_in_stock := v |}.

(** [Product.__init__]: no check, only the two conversions. *)
Definition Product_init {B : Builtins} (product_id name price quantity_in_stock : pyval) : outcome Common :=
  id ← as_str product_id;
  nm ← as_str name;
  p ← py_float price;
  q ← py_int quantity_in_stock;
  Ret {| _product_id := id; _name := nm; _price := p; _quantity_in_stock := q |}.

Definition Electronics_init {B : Builtins}
    (product_id name price quantity_in_stock warranty_years brand : pyval) : outcome Product :=
  c ← Product_init product_id name price quantity_in_stock;
  w ← py_int warranty_years;
  b ← as_str brand;
  Ret (Electronics c w b).

Definition Grocery_init {B : Builtins}
    (product_id name price quantity_in_stock expiry_date : pyval) : outcome Product :=
  c ← Product_init product_id name price quantity_in_stock;
  d ← match expiry_date with
      | PStr s => dateutil_parse s
      | _ => Raise (TypeError ("Parser must be a string or character stream, not "
                               +:+ type_name expiry_date))
      end;
  Ret (Grocery c d).

Definition Clothing_init {B : Builtins}
    (product_id name price quantity_in_stock size material : pyval) : outcome Product :=
  c ← Product_init product_id name price quantity_in_stock;
  s ← as_str size;
  m ← as_str material;
  Ret (Clothing c s m).

(** The [price] setter. *)
Definition set_price (new_price : float) : method Product unit := λ self,
  if PrimFloat.ltb new_price 0
  then (self, Raise (ValueError "Price cannot be negative"))
  else (assign_price new_price self, Ret ()).

Definition restock (amount : Z) : method Product unit := λ self,
  if amount <? 0
  then (self, Raise (ValueError "Restock amount cannot be negative"))
  else (assign_quantity_in_stock (quantity_in_stock self + amount) self, Ret ()).

Definition sell (quantity : Z) : method Product float := λ self,
  if quantity <? 0
  then (self, Raise (ValueError "Sale quantity cannot be negative"))
  else if quantity >? quantity_in_stock self
  then (self, Raise (InsufficientStockError (product_id self) quantity (quantity_in_stock self)))
  else
    let self := assign_quantity_in_stock (quantity_in_stock self - quantity) self in
    (self, float_mul_int (price self) quantity).

Definition get_total_value (self : Product) : outcome float :=
  float_mul_int (price self) (quantity_in_stock self).

(** [Grocery.is_expired], with the date [datetime.now().date()] returned. *)
Definition is_expired (today : date) (_expiry_date : date) : bool :=
  date_gt today _expiry_date.

(** ** Serialisation ([to_dict]) *)

(** [d.update(new)]: the keys of [new] override. *)
Definition dict_update (d new : gmap string pyval) : gmap string pyval := new ∪ d.

(** [Product.to_dict], the part shared by the subclasses. *)
Definition Product_to_dict (self : Product) : gmap string pyval :=
  list_to_map [
    ("product_id", PStr (product_id self));
    ("name", PStr (name self));
    ("price", PFloat (price self));
    ("quantity_in_stock", PInt (quantity_in_stock self));
    ("type", PStr (class_name self)) ].

Definition to_dict (self : Product) : gmap string pyval :=
  let base_dict := Product_to_dict self in
  match self with
  | Electronics _ w b =>
      dict_update base_dict (list_to_map [("warranty_years", PInt w); ("brand", PStr b)])
  | Grocery _ d =>
      dict_update base_dict (list_to_map [("expiry_date", PStr (isoformat d))])
  | Clothing _ s m =>
      dict_update base_dict (list_to_map [("size", PStr s); ("material", PStr m)])
  end.

(** ** The store ([src/models/inventory.py]) *)

(** [self._products]: a dict in insertion order. *)
Abbreviation Inventory := (list (string * Product)).

(** [k in d]. *)
Definition dict_contains (k : string) (d : Inventory) : bool :=
  bool_decide (k ∈ d.*1).

(** [d[k]], for a key that may be absent. *)
Fixpoint dict_get (k : string) (d : Inventory) : option Product :=
  match d with
  | [] => None
  | (k', v) :: d' => if decide (k = k') then Some v else dict_get k d'
  end.

(** [d[k] = v]: in place when the key is present, at the end otherwise. *)
Fixpoint dict_set (k : string) (v : Product) (d : Inventory) : Inventory :=
  match d with
  | [] => [(k, v)]
  | (k', v') :: d' => if decide (k = k') then (k, v) :: d' else (k', v') :: dict_set k v d'
  end.

(** [del d[k]] for a key that is present. *)
Definition dict_del (k : string) (d : Inventory) : Inventory :=
  filter (λ kv, kv.1 ≠ k) d.

(** [d.values()]. *)
Definition values (d : Inventory) : list Product := d.*2.

(** [PRODUCT_TYPES]: the class registered under a tag. *)
Inductive product_class : Type := ElectronicsClass | GroceryClass | ClothingClass.

Definition PRODUCT_TYPES (product_type : string) : option product_class :=
  if decide (product_type = "Electronics") then Some ElectronicsClass
  else if decide (product_type = "Grocery") then Some GroceryClass
  else if decide (product_type = "Clothing") then Some ClothingClass
  else None.

(** [isinstance(product, cls)]: no class derives from another concrete one. *)
Definition isinstance (product : Product) (cls : product_class) : bool :=
  match product, cls with
  | Electronics _ _ _, ElectronicsClass
  | Grocery _ _, GroceryClass
  | Clothing _ _ _, ClothingClass => true
  | _, _ => false
  end.

Definition add_product (product : Product) : method Inventory unit := λ self,
  if dict_contains (product_id product) self
  then (self, Raise (DuplicateProductError (product_id product)))
  else (dict_set (product_id product) product self, Ret ()).

Definition remove_product (product_id : string) : method Inventory unit := λ self,
  if negb (dict_contains product_id self)
  then (self, Raise (ProductNotFoundError product_id))
  else (dict_del product_id self, Ret ()).

Definition get_product (product_id : string) : method Inventory Product := λ self,
  match dict_get product_id self with
  | None => (self, Raise (ProductNotFoundError product_id))
  | Some product => (self, Ret product)
  end.

(** [str.lower()] on ASCII text. *)
Definition lower_ascii (c : ascii) : ascii :=
  let n := N_of_ascii c in
  if ((65 <=? n) && (n <=? 90))%N then ascii_of_N (n + 32) else c.

Fixpoint lower (s : string) : string :=
  match s with
  | EmptyString => EmptyString
  | String c s' => String (lower_ascii c) (lower s')
  end.

(** [s] begins with [sub]. *)
Fixpoint starts_with (sub s : string) : bool :=
  match sub, s with
  | EmptyString, _ => true
  | String _ _, EmptyString => false
  | String a sub', String b s' => Ascii.eqb a b && starts_with sub' s'
  end.

(** [sub in s] on strings: [sub] starts at some position of [s]. *)
Fixpoint str_in (sub s : string) : bool :=
  starts_with sub s ||
  match s with
  | EmptyString => false
  | String _ s' => str_in sub s'
  end.

Definition search_by_name (name_ : string) : method Inventory (list Product) := λ self,
  let name_ := lower name_ in
  (self, Ret (filter (λ product, str_in name_ (lower (name product))) (values self))).

Definition search_by_type (product_type : string) : method Inventory (list Product) := λ self,
  match PRODUCT_TYPES product_type with
  | None => (self, Raise (InvalidProductTypeError product_type))
  | Some cls => (self, Ret (filter (λ product, isinstance product cls) (values self)))
  end.

Definition list_all_products : method Inventory (list Product) := λ self,
  (self, Ret (values self)).

(** [product = self.get_product(product_id)] hands out the stored object,
    so what [product.sell] does to it shows in the store. *)
Definition sell_product (product_id : string) (quantity : Z) : method Inventory float := λ self,
  match get_product product_id self with
  | (self, Ret product) =>
      let '(product, result) := sell quantity product in
      (dict_set product_id product self, result)
  | (self, Raise e) => (self, Raise e)
  | (self, Untyped) => (self, Untyped)
  end.

Definition restock_product (product_id : string) (quantity : Z) : method Inventory unit := λ self,
  match get_product product_id self with
  | (self, Ret product) =>
      let '(product, result) := restock quantity product in
      (dict_set product_id product self, result)
  | (self, Raise e) => (self, Raise e)
  | (self, Untyped) => (self, Untyped)
  end.

(** [sum(xs)] over floats: from the int [0], left to right. *)
Definition py_sum (xs : list float) : pyval :=
  match xs with
  | [] => PInt 0
  | x :: xs' => PFloat (foldl PrimFloat.add (PrimFloat.add 0 x) xs')
  end.

Definition total_inventory_value : method Inventory pyval := λ self,
  (self, totals ← mapM get_total_value (values self); Ret (py_sum totals)).

(** The loop body of [remove_expired_products] at one item of the copied
    item list: the dict and [expired_ids] before, and after. *)
Definition sweep_step (today : date) (state : Inventory * list string)
    (item : string * Product) : Inventory * list string :=
  let '(products, expired_ids) := state in
  let '(product_id, product) := item in
  match product with
  | Grocery _ d =>
      if is_expired today d
      then (dict_del product_id products, expired_ids ++ [product_id])
      else (products, expired_ids)
  | _ => (products, expired_ids)
  end.

(** [remove_expired_products], [today] being what [datetime.now().date()]
    returns during the call. *)
Definition remove_expired_products (today : date) : method Inventory (list string) := λ self,
  let expired_ids := [] in
  let '(products, expired_ids) := foldl (sweep_step today) (self, expired_ids) self in
  (products, Ret expired_ids).

(** ** Persistence *)

(** What a file holds, as [json.load] sees it: text that is not JSON (with
    the decoder's message), or a JSON document, given as the value
    [json.load] returns for it. [json.dump] writes a document that
    [json.load] reads back as the same value. *)
Inductive file_content : Type :=
| Malformed (error : string)
| Document (data : pyval).

Abbreviation filesystem := (gmap string file_content).

Definition save_to_file (filename : string) (self : Inventory) (fs : filesystem) : filesystem :=
  let data := PDict (list_to_map
    [("products", PList ((λ product, PDict (to_dict product)) <$> values self))]) in
  <[filename := Document data]> fs.

(** [with open(filename, 'r') as f: data = json.load(f)]. *)
Definition read_json (fs : filesystem) (filename : string) : outcome pyval :=
  match fs !! filename with
  | None => Raise (OSError ("[Errno 2] No such file or directory: '" +:+ filename +:+ "'"))
  | Some (Malformed error) => Raise (JSONDecodeError error)
  | Some (Document data) => Ret data
  end.

(** [data.get('products', [])]. *)
Definition get_products (data : pyval) : outcome pyval :=
  match data with
  | PDict d => Ret (default (PList []) (d !! "products"))
  | _ => Raise (AttributeError ("'" +:+ type_name data +:+ "' object has no attribute 'get'"))
  end.

(** The items a [for] loop over [v] visits. *)
Definition py_iter (v : pyval) : outcome (list pyval) :=
  match v with
  | PList items => Ret items
  | PDict d => Ret (PStr <$> (map_to_list d).*1)
  | PStr s => Ret ((λ c, PStr (String c EmptyString)) <$> list_ascii_of_string s)
  | _ => Raise (TypeError ("'" +:+ type_name v +:+ "' object is not iterable"))
  end.

(** [product_data.pop('type', None)]: the tag and the dict left. *)
Definition pop_type (product_data : pyval) : outcome (pyval * gmap string pyval) :=
  match product_data with
  | PDict d => Ret (default PNone (d !! "type"), delete "type" d)
  | PList _ => Raise (TypeError "pop expected at most 1 argument, got 2")
  | _ => Raise (AttributeError ("'" +:+ type_name product_data
                                +:+ "' object has no attribute 'pop'"))
  end.

(** [if product_type not in cls.PRODUCT_TYPES: raise ...] followed by
    [cls.PRODUCT_TYPES[product_type]]. *)
Definition lookup_class {B : Builtins} (product_type : pyval) : outcome product_class :=
  match product_type with
  | PList _ | PDict _ =>
      Raise (TypeError ("unhashable type: '" +:+ type_name product_type +:+ "'"))
  | _ =>
      match (match product_type with PStr s => PRODUCT_TYPES s | _ => None end) with
      | Some cls => Ret cls
      | None => Raise (InvalidProductDataError
                         ("Unknown product type: " +:+ py_str product_type))
      end
  end.

(** The parameters of each class's [__init__], [self] apart. *)
Definition parameters (cls : product_class) : list string :=
  ["product_id"; "name"; "price"; "quantity_in_stock"] ++
  match cls with
  | ElectronicsClass => ["warranty_years"; "brand"]
  | GroceryClass => ["expiry_date"]
  | ClothingClass => ["size"; "material"]
  end.

Definition kwarg (kwargs : gmap string pyval) (k : string) : outcome pyval :=
  match kwargs !! k with
  | Some v => Ret v
  | None => Raise (TypeError ("__init__() missing 1 required positional argument: '"
                              +:+ k +:+ "'"))
  end.

(** The call of [product_class] with the entries of [product_data] as
    keyword arguments. *)
Definition call_class {B : Builtins} (cls : product_class) (kwargs : gmap string pyval)
    : outcome Product :=
  if decide (dom kwargs ⊆ list_to_set (parameters cls))
  then
    product_id ← kwarg kwargs "product_id";
    name ← kwarg kwargs "name";
    price ← kwarg kwargs "price";
    quantity_in_stock ← kwarg kwargs "quantity_in_stock";
    match cls with
    | ElectronicsClass =>
        warranty_years ← kwarg kwargs "warranty_years";
        brand ← kwarg kwargs "brand";
        Electronics_init product_id name price quantity_in_stock warranty_years brand
    | GroceryClass =>
        expiry_date ← kwarg kwargs "expiry_date";
        Grocery_init product_id name price quantity_in_stock expiry_date
    | ClothingClass =>
        size ← kwarg kwargs "size";
        material ← kwarg kwargs "material";
        Clothing_init product_id name price quantity_in_stock size material
    end
  else Raise (TypeError "__init__() got an unexpected keyword argument").

(** The body of the [for] loop of [load_from_file]. *)
Definition load_entry {B : Builtins} (inventory : Inventory) (product_data : pyval)
    : outcome Inventory :=
  '(product_type, kwargs) ← pop_type product_data;
  product_class ← lookup_class product_type;
  try_except
    (product ← call_class product_class kwargs;
     let '(inventory, result) := add_product product inventory in
     _ ← result; Ret inventory)
    (λ e, Raise (InvalidProductDataError ("Error creating product: " +:+ exn_str e))).

Fixpoint load_entries {B : Builtins} (inventory : Inventory) (items : list pyval)
    : outcome Inventory :=
  match items with
  | [] => Ret inventory
  | product_data :: items' =>
      inventory ← load_entry inventory product_data;
      load_entries inventory items'
  end.

(** The statements under [try:] in [load_from_file]. *)
Definition load_from_file_try {B : Builtins} (inventory : Inventory) (fs : filesystem)
    (filename : string) : outcome Inventory :=
  data ← read_json fs filename;
  products ← get_products data;
  items ← py_iter products;
  load_entries inventory items.

Definition load_from_file {B : Builtins} (fs : filesystem) (filename : string)
    : outcome Inventory :=
  let inventory := [] in
  match load_from_file_try inventory fs filename with
  | Ret inventory => Ret inventory
  | Raise (JSONDecodeError _) => Raise (InvalidProductDataError "Invalid JSON file")
  | Raise e => Raise (InvalidProductDataError ("Error loading inventory: " +:+ exn_str e))
  | Untyped => Untyped
  end.

(** ** Sequences of calls on one product *)

Inductive call : Type :=
| Sell (quantity : Z)
| Restock (amount : Z).

(** [valid_calls self calls self']: each call of [calls], made in turn on the
    product [self], returns, and leaves the product [self']. *)
Inductive valid_calls : Product → list call → Product → Prop :=
| valid_calls_nil self :
    valid_calls self [] self
| valid_calls_sell self quantity total self' calls self'' :
    sell quantity self = (self', Ret total) →
    valid_calls self' calls self'' →
    valid_calls self (Sell quantity :: calls) self''
| valid_calls_restock self amount self' calls self'' :
    restock amount self = (self', Ret ()) →
    valid_calls self' calls self'' →
    valid_calls self (Restock amount :: calls) self''.

(** Units added to the stock by a sequence of calls. *)
Definition stock_change (calls : list call) : Z :=
  foldr (λ c acc, match c with Sell q => acc - q | Restock a => acc + a end) 0 calls.

(** ** Calls a caller makes one after the other, failures included *)

Inductive request : Type :=
| SellRequest (quantity : Z)
| RestockRequest (amount : Z)
| PriceRequest (new_price : float).

(** The product after one call, whether the call returned or raised. *)
Definition serve (r : request) (self : Product) : Product :=
  match r with
  | SellRequest quantity => (sell quantity self).1
  | RestockRequest amount => (restock amount self).1
  | PriceRequest new_price => (set_price new_price self).1
  end.

(** The product after the calls [rs], made in turn. *)
Definition serve_all (rs : list request) (self : Product) : Product :=
  foldl (λ self r, serve r self) self rs.

(** ** The command-line interface ([src/main.py])

    The terminal is the list of lines still to be typed and the list of
    texts written so far. [input] writes its prompt and takes the next line;
    with no line left it raises [EOFError], which no handler catches. A
    handler runs on the session: the object ([self.inventory],
    [self.running]), the terminal and the files. *)

Module InventoryCLI.

Definition nl : string := String (ascii_of_nat 10) EmptyString.

Record console : Type := { stdin : list string; stdout : list string }.

Record state : Type := {
  inventory : Inventory;
  running : bool;
  terminal : console;
  files : filesystem
}.

(** How a piece of the interface ends: it returns a value, an exception
    leaves it, [input] finds no line ([EOFError] leaves it), or the data left
    the annotated types. *)
Inductive reply (A : Type) : Type :=
| Returned (a : A)
| Uncaught (e : exn)
| EndOfInput
| UntypedData.
Arguments Returned {A} a.
Arguments Uncaught {A} e.
Arguments EndOfInput {A}.
Arguments UntypedData {A}.

Definition io (A : Type) : Type := state → state * reply A.

#[global] Instance io_ret : MRet io := λ A a self, (self, Returned a).
#[global] Instance io_bind : MBind io := λ A B k m self,
  match m self with
  | (self, Returned a) => k a self
  | (self, Uncaught e) => (self, Uncaught e)
  | (self, EndOfInput) => (self, EndOfInput)
  | (self, UntypedData) => (self, UntypedData)
  end.

(** [try: body / except <classes> as e: handler e]. *)
Definition catch {A} (classes : exn → bool) (body : io A) (handler : exn → io A) : io A :=
  λ self,
  match body self with
  | (self, Uncaught e) => if classes e then handler e self else (self, Uncaught e)
  | done => done
  end.

(** The exception classes the handlers name. [JSONDecodeError] derives from
    [ValueError]; the five classes of the repository derive from
    [InventoryError]. *)
Definition is_ValueError (e : exn) : bool :=
  match e with ValueError _ | JSONDecodeError _ => true | _ => false end.

Definition is_ProductNotFoundError (e : exn) : bool :=
  match e with ProductNotFoundError _ => true | _ => false end.

Definition is_InvalidProductDataError (e : exn) : bool :=
  match e with InvalidProductDataError _ => true | _ => false end.

Definition is_InventoryError (e : exn) : bool :=
  match e with
  | InsufficientStockError _ _ _ | DuplicateProductError _ | ProductNotFoundError _
  | InvalidProductDataError _ | InvalidProductTypeError _ => true
  | _ => false
  end.

Definition of_outcome {A} (r : outcome A) : io A := λ self,
  (self, match r with
         | Ret a => Returned a
         | Raise e => Uncaught e
         | Untyped => UntypedData
         end).

(** A call of a method of [self.inventory]. *)
Definition on_inventory {A} (m : method Inventory A) : io A := λ self,
  let '(inv, r) := m (inventory self) in
  of_outcome r {| inventory := inv; running := running self;
                  terminal := terminal self; files := files self |}.

(** [print(s)]. *)
Definition print (s : string) : io unit := λ self,
  ({| inventory := inventory self; running := running self;
      terminal := {| stdin := stdin (terminal self);
                     stdout := stdout (terminal self) ++ [s +:+ nl] |};
      files := files self |}, Returned ()).

(** [input(prompt)]. *)
Definition input (prompt : string) : io string := λ self,
  let out := stdout (terminal self) ++ [prompt] in
  match stdin (terminal self) with
  | [] =>
      ({| inventory := inventory self; running := running self;
          terminal := {| stdin := []; stdout := out |};
          files := files self |}, EndOfInput)
  | line :: rest =>
      ({| inventory := inventory self; running := running self;
          terminal := {| stdin := rest; stdout := out |};
          files := files self |}, Returned line)
  end.

(** [str.isspace()] on an ASCII character, and [str.strip()]. *)
Definition is_space (c : ascii) : bool :=
  let n := N_of_ascii c in
  (((9 <=? n) && (n <=? 13)) || ((28 <=? n) && (n <=? 32)))%N.

Fixpoint lstrip (s : string) : string :=
  match s with
  | EmptyString => EmptyString
  | String c s' => if is_space c then lstrip s' else s
  end.

Definition strip (s : string) : string :=
  String.rev (lstrip (String.rev (lstrip s))).

(** [InventoryCLI()], on a terminal and a file system. *)
Definition init (c : console) (fs : filesystem) : state :=
  {| inventory := []; running := true; terminal := c; files := fs |}.

(** One round of the loop of [get_product_type]: the tag chosen, or [None]
    after an invalid choice. *)
Definition get_product_type_round : io (option string) :=
  print (nl +:+ "Select product type:");;
  print "1. Electronics";;
  print "2. Grocery";;
  print "3. Clothing";;
  print "0. Back to main menu";;
  line ← input (nl +:+ "Enter your choice (0-3): ");
  let choice := strip line in
  if decide (choice = "0") then mret (Some EmptyString)
  else if decide (choice = "1") then mret (Some "Electronics")
  else if decide (choice = "2") then mret (Some "Grocery")
  else if decide (choice = "3") then mret (Some "Clothing")
  else print "Invalid choice. Please try again.";; mret None.

(** [while True:] every round reads a line or ends the loop, so the loop
    makes at most one round more than there are lines to read. *)
Fixpoint get_product_type_rounds (rounds : nat) : io string :=
  match rounds with
  | O => λ self, (self, EndOfInput)
  | S rounds =>
      choice ← get_product_type_round;
      match choice with
      | Some tag => mret tag
      | None => get_product_type_rounds rounds
      end
  end.

Definition get_product_type : io string := λ self,
  get_product_type_rounds (S (length (stdin (terminal self)))) self.

(** [float(input(prompt).strip())] and [int(input(prompt).strip())]. *)
Definition input_float {B : Builtins} (prompt : string) : io float :=
  line ← input prompt; of_outcome (float_of_str (strip line)).

Definition input_int {B : Builtins} (prompt : string) : io Z :=
  line ← input prompt; of_outcome (int_of_str (strip line)).

Definition input_stripped (prompt : string) : io string :=
  line ← input prompt; mret (strip line).

Definition get_product_data {B : Builtins} (product_type : string)
    : io (option (gmap string pyval)) :=
  catch is_ValueError
    (print (nl +:+ "Enter product details:");;
     product_id ← input_stripped "Product ID: ";
     name ← input_stripped "Name: ";
     price ← input_float "Price: ";
     quantity ← input_int "Quantity in stock: ";
     let common : list (string * pyval) :=
       [("product_id", PStr product_id); ("name", PStr name);
        ("price", PFloat price); ("quantity_in_stock", PInt quantity)] in
     if decide (product_type = "Electronics") then
       warranty ← input_int "Warranty (years): ";
       brand ← input_stripped "Brand: ";
       mret (Some (list_to_map
         (common ++ [("warranty_years", PInt warranty); ("brand", PStr brand)])))
     else if decide (product_type = "Grocery") then
       expiry ← input_stripped "Expiry date (YYYY-MM-DD): ";
       mret (Some (list_to_map (common ++ [("expiry_date", PStr expiry)])))
     else if decide (product_type = "Clothing") then
       size ← input_stripped "Size: ";
       material ← input_stripped "Material: ";
       mret (Some (list_to_map
         (common ++ [("size", PStr size); ("material", PStr material)])))
     else mret None)
    (λ e, print ("Error: Invalid input - " +:+ exn_str e);; mret None).

Definition add_product {B : Builtins} : io unit :=
  product_type ← get_product_type;
  if decide (product_type = EmptyString) then mret ()
  else
    product_data ← get_product_data product_type;
    match product_data with
    | None => mret ()
    | Some product_data =>
        catch is_InventoryError
          (product ← of_outcome
             (if decide (product_type = "Electronics")
              then call_class ElectronicsClass product_data
              else if decide (product_type = "Grocery")
              then call_class GroceryClass product_data
              else call_class ClothingClass product_data);
           on_inventory (add_product product);;
           print (nl +:+ "Product added successfully!"))
          (λ e, print (nl +:+ "Error: " +:+ exn_str e))
    end.

Definition remove_product : io unit :=
  product_id ← input_stripped (nl +:+ "Enter product ID to remove: ");
  catch is_ProductNotFoundError
    (on_inventory (remove_product product_id);;
     print (nl +:+ "Product removed successfully!"))
    (λ e, print (nl +:+ "Error: " +:+ exn_str e)).

Definition restock_product {B : Builtins} : io unit :=
  product_id ← input_stripped (nl +:+ "Enter product ID: ");
  catch (λ e, is_ValueError e || is_ProductNotFoundError e)
    (quantity ← input_int "Enter quantity to add: ";
     on_inventory (restock_product product_id quantity);;
     print (nl +:+ "Product restocked successfully!"))
    (λ e, print (nl +:+ "Error: " +:+ exn_str e)).

(** [remove_expired], [today] being the date of the call. *)
Definition remove_expired (today : date) : io unit :=
  expired_ids ← on_inventory (remove_expired_products today);
  match expired_ids with
  | [] => print (nl +:+ "No expired products found.")
  | _ =>
      print (nl +:+ "Removed " +:+ pretty (length expired_ids) +:+ " expired products:");;
      foldr (λ product_id rest, print ("- " +:+ product_id);; rest) (mret ()) expired_ids
  end.

(** The name typed, or the default name for an empty one. *)
Definition filename_or_default (line : string) : string :=
  let filename := strip line in
  if decide (filename = EmptyString) then "inventory.json" else filename.

(** [save_inventory]. The file system of the model takes every write, so the
    [except Exception] of the handler has nothing to catch. *)
Definition save_inventory : io unit :=
  line ← input (nl +:+ "Enter filename to save (default: inventory.json): ");
  let filename := filename_or_default line in
  (λ self, ({| inventory := inventory self; running := running self;
               terminal := terminal self;
               files := save_to_file filename (inventory self) (files self) |},
            Returned ()));;
  print (nl +:+ "Inventory saved successfully!").

Definition load_inventory {B : Builtins} : io unit :=
  line ← input (nl +:+ "Enter filename to load (default: inventory.json): ");
  let filename := filename_or_default line in
  catch is_InvalidProductDataError
    (loaded ← (λ self, of_outcome (load_from_file (files self) filename) self);
     (λ self, ({| inventory := loaded; running := running self;
                  terminal := terminal self; files := files self |}, Returned ()));;
     print (nl +:+ "Inventory loaded successfully!"))
    (λ e, print (nl +:+ "Error loading inventory: " +:+ exn_str e)).

End InventoryCLI.

(** ** Notions the properties are stated with

    These follow the words of the specification, not the code; the
    properties relate them to the code. *)

(** The three known variant tags. *)
Definition known_tags : list string := ["Electronics"; "Grocery"; "Clothing"].

(** [a] is strictly after [b] in the calendar. *)
Definition strictly_after (a b : date) : Prop :=
  year b < year a ∨
  (year a = year b ∧ (month b < month a ∨ (month a = month b ∧ day b < day a))).

(** A Grocery product past its expiry date on the day [today]. *)
Definition expired_grocery (today : date) (product : Product) : Prop :=
  match product with
  | Grocery _ d => strictly_after today d
  | _ => False
  end.

(** A product a running program can hold: the expiry date of a Grocery
    product is a date of the calendar. *)
Definition valid_product (product : Product) : Prop :=
  match product with
  | Grocery _ d => valid_date d = true
  | _ => True
  end.

(** A store as the code builds it: a dict (no key twice) that files each
    product under its own id, and holds only valid products. *)
Definition valid_store (self : Inventory) : Prop :=
  NoDup self.*1 ∧
  Forall (λ item, item.1 = product_id item.2 ∧ valid_product item.2) self.

(** The class of an object. *)
Definition class_of (product : Product) : product_class :=
  match product with
  | Electronics _ _ _ => ElectronicsClass
  | Grocery _ _ => GroceryClass
  | Clothing _ _ _ => ClothingClass
  end.

(** Two characters that are the same letter, whatever the case. *)
Definition is_upper (c : ascii) : Prop := (65 ≤ N_of_ascii c ≤ 90)%N.

Definition same_letter (a b : ascii) : Prop :=
  a = b ∨
  (is_upper a ∧ N_of_ascii b = (N_of_ascii a + 32)%N) ∨
  (is_upper b ∧ N_of_ascii a = (N_of_ascii b + 32)%N).

(** Two texts that differ in case only. *)
Inductive same_text : string → string → Prop :=
| same_text_empty : same_text EmptyString EmptyString
| same_text_letter a b s t :
    same_letter a b → same_text s t → same_text (String a s) (String b t).

(** [s] contains [sub] as a case-insensitive substring. *)
Definition contains_ignoring_case (sub s : string) : Prop :=
  ∃ pre mid post, s = pre +:+ mid +:+ post ∧ same_text mid sub.

(** ** An instance of the built-ins for concrete runs

    The theorems below hold for every instance of [Builtins]. To run the
    model on concrete data an instance is needed; this one reads dates in
    the ISO form [YYYY-MM-DD] only and refuses every string as a number. *)

Definition digit_value (c : ascii) : option Z :=
  let n := N_of_ascii c in
  if ((48 <=? n) && (n <=? 57))%N then Some (Z.of_N n - 48) else None.

Definition number (cs : list ascii) : option Z :=
  foldl (λ acc c, a ← acc; v ← digit_value c; Some (10 * a + v)) (Some 0) cs.

Definition parse_iso (s : string) : outcome date :=
  match list_ascii_of_string s with
  | [y1; y2; y3; y4; "-"%char; m1; m2; "-"%char; d1; d2] =>
      match number [y1; y2; y3; y4], number [m1; m2], number [d1; d2] with
      | Some y, Some m, Some d =>
          let date := Date y m d in
          if valid_date date then Ret date
          else Raise (ValueError ("Unknown string format: " +:+ s))
      | _, _, _ => Raise (ValueError ("Unknown string format: " +:+ s))
      end
  | _ => Raise (ValueError ("Unknown string format: " +:+ s))
  end.

Definition iso_builtins : Builtins := {|
  float_of_str s := Raise (ValueError ("could not convert string to float: '" +:+ s +:+ "'"));
  int_of_str s := Raise (ValueError ("invalid literal for int() with base 10: '" +:+ s +:+ "'"));
  float_repr f := "float";
  dateutil_parse := parse_iso
|}.

(** ** Concrete products used in examples *)

(** Electronics(id="E1", price=100, qty=5, warranty=2, brand="Acme"). *)
Definition acme_tv : Product :=
  Electronics {| _product_id := "E1"; _name := "TV"; _price := 100;
                 _quantity_in_stock := 5 |} 2 "Acme".

(** The same product with [2 ** 1024] units in stock. *)
Definition acme_bulk : Product :=
  assign_quantity_in_stock (2 ^ 1024) acme_tv.

(** Grocery(id="G1", price=2, qty=10, expiry="2000-01-01"). *)
Definition old_milk : Product :=
  Grocery {| _product_id := "G1"; _name := "Milk"; _price := 2;
             _quantity_in_stock := 10 |} (Date 2000 1 1).

(** A Grocery product that expires on the last day of 2999. *)
Definition long_life_rice : Product :=
  Grocery {| _product_id := "G2"; _name := "Rice"; _price := 3;
             _quantity_in_stock := 7 |} (Date 2999 12 31).

Definition cotton_shirt : Product :=
  Clothing {| _product_id := "C1"; _name := "Cotton Shirt"; _price := 20;
              _quantity_in_stock := 4 |} "M" "Cotton".

(** A store holding the four products, in this order of insertion. *)
Definition sample_store : Inventory :=
  [("E1", acme_tv); ("G1", old_milk); ("G2", long_life_rice); ("C1", cotton_shirt)].

(** A file whose second entry carries the tag "Furniture". *)
Definition furniture_entry : gmap string pyval :=
  list_to_map [("product_id", PStr "F1"); ("name", PStr "Chair");
               ("price", PFloat 40); ("quantity_in_stock", PInt 1);
               ("type", PStr "Furniture")].

Definition furniture_document : gmap string pyval :=
  list_to_map [("products", PList [PDict (to_dict acme_tv); PDict furniture_entry])].

Definition furniture_files : filesystem :=
  {[ "inventory.json" := Document (PDict furniture_document) ]}.

(** A file that lists the same product twice. *)
Definition duplicate_files : filesystem :=
  {[ "inventory.json" :=
       Document (PDict (list_to_map
         [("products", PList [PDict (to_dict acme_tv); PDict (to_dict acme_tv)])])) ]}.

(** A file holding a JSON object with no "products" key. *)
Definition no_products_document : gmap string pyval :=
  list_to_map [("items", PList [])].

Definition no_products_files : filesystem :=
  {[ "inventory.json" := Document (PDict no_products_document) ]}.

(** ** Built-ins and a session for runs of the command line *)

(** An instance that also reads the numbers written with digits only, as
    [int] and [float] read them ([float] of a long run of digits is [inf]). *)
Definition digits_builtins : Builtins := {|
  float_of_str s :=
    match list_ascii_of_string s, number (list_ascii_of_string s) with
    | _ :: _, Some n =>
        match float_of_int n with
        | Ret f => Ret f
        | _ => Ret PrimFloat.infinity
        end
    | _, _ => Raise (ValueError ("could not convert string to float: '" +:+ s +:+ "'"))
    end;
  int_of_str s :=
    match list_ascii_of_string s, number (list_ascii_of_string s) with
    | _ :: _, Some n => Ret n
    | _, _ => Raise (ValueError ("invalid literal for int() with base 10: '" +:+ s +:+ "'"))
    end;
  float_repr f := "float";
  dateutil_parse := parse_iso
|}.

(** Electronics(id="E7", price=25, qty=3, warranty=2, brand="Sony"). *)
Definition sony_radio : Product :=
  Electronics {| _product_id := "E7"; _name := "Radio"; _price := 25;
                 _quantity_in_stock := 3 |} 2 "Sony".

(** A session holding the sample store, with lines to type. *)
Definition sample_session (lines : list string) : InventoryCLI.state :=
  {| InventoryCLI.inventory := sample_store; InventoryCLI.running := true;
     InventoryCLI.terminal := {| InventoryCLI.stdin := lines; InventoryCLI.stdout := [] |};
     InventoryCLI.files := ∅ |}.

(** Pieces of the interface that work on the terminal only. *)
Definition terminal_only {A} (m : InventoryCLI.io A) : Prop :=
  ∀ self self' r, m self = (self', r) →
    InventoryCLI.inventory self' = InventoryCLI.inventory self ∧
    InventoryCLI.files self' = InventoryCLI.files self.

(** * Properties *)

(** ** Stock arithmetic of a product *)

Lemma price_assign_quantity_in_stock v self :
  price (assign_quantity_in_stock v self) = price self.
Proof. by destruct self. Qed.

Lemma quantity_in_stock_assign v self :
  quantity_in_stock (assign_quantity_in_stock v self) = v.
Proof. by destruct self. Qed.

Lemma product_id_assign_quantity_in_stock v self :
  product_id (assign_quantity_in_stock v self) = product_id self.
Proof. by destruct self. Qed.

Lemma class_name_assign_quantity_in_stock v self :
  class_name (assign_quantity_in_stock v self) = class_name self.
Proof. by destruct self. Qed.

(** What [sell] does once both guards are passed. *)
Lemma sell_guards_passed self quantity :
  0 ≤ quantity ≤ quantity_in_stock self →
  sell quantity self =
    (assign_quantity_in_stock (quantity_in_stock self - quantity) self,
     float_mul_int (price self) quantity).
Proof.
  intros [Hlo Hhi]. unfold sell.
  destruct (Z.ltb_spec quantity 0) as [?|_]; [lia|].
  destruct (Z.gtb_spec quantity (quantity_in_stock self)) as [?|_]; [lia|].
  by rewrite price_assign_quantity_in_stock.
Qed.

(** A call of [sell] that returns passed both guards. *)
Lemma sell_returns_inv self quantity self' total :
  sell quantity self = (self', Ret total) →
  0 ≤ quantity ≤ quantity_in_stock self ∧
  self' = assign_quantity_in_stock (quantity_in_stock self - quantity) self.
Proof.
  unfold sell.
  destruct (Z.ltb_spec quantity 0); [intros [=]|].
  destruct (Z.gtb_spec quantity (quantity_in_stock self)); [intros [=]|].
  intros [= <- _]. split; [lia | done].
Qed.

Lemma restock_returns_inv self amount self' :
  restock amount self = (self', Ret ()) →
  0 ≤ amount ∧ self' = assign_quantity_in_stock (quantity_in_stock self + amount) self.
Proof.
  unfold restock. destruct (Z.ltb_spec amount 0); [intros [=]|].
  intros [= <-]. split; [lia | done].
Qed.

(** C2, as amended. For every product with price [p] and stock [q] and every
    quantity [s] with [0 <= s <= q] that converts to a float [f] (the
    conversion [float * int] performs), [sell(s)] returns the sale total
    [p * f], with the price of the product at the call, and leaves the stock
    at [q - s], the price untouched; [sell(q)] leaves the stock at 0. *)
Theorem sell_within_stock self quantity f :
  0 ≤ quantity ≤ quantity_in_stock self →
  float_of_int quantity = Ret f →
  ∃ self',
    sell quantity self = (self', Ret (PrimFloat.mul (price self) f)) ∧
    quantity_in_stock self' = quantity_in_stock self - quantity ∧
    price self' = price self ∧
    (quantity = quantity_in_stock self → quantity_in_stock self' = 0).
Proof.
  intros Hrange Hf.
  exists (assign_quantity_in_stock (quantity_in_stock self - quantity) self).
  rewrite sell_guards_passed by done.
  unfold float_mul_int. rewrite Hf. simpl.
  rewrite quantity_in_stock_assign, price_assign_quantity_in_stock.
  repeat split; lia.
Qed.

(** The scenario of the specification: selling 3 of 5 units at 100 returns
    300.0 and leaves 2. *)
Lemma sell_within_stock_witness :
  ∃ self',
    sell 3 acme_tv = (self', Ret (PrimFloat.mul (price acme_tv) 3)) ∧
    quantity_in_stock self' = quantity_in_stock acme_tv - 3 ∧
    price self' = price acme_tv ∧
    (3 = quantity_in_stock acme_tv → quantity_in_stock self' = 0).
Proof.
  apply (sell_within_stock acme_tv 3 3%float).
  - vm_compute. split; discriminate.
  - reflexivity.
Defined.

(** C2 as stated fails: a product holding [2 ** 1024] units passes both
    guards of [sell(2 ** 1024)], its stock is brought to 0, and the product
    [price * quantity] raises [OverflowError]: no sale total is returned. *)
Lemma sell_beyond_float_range :
  0 ≤ 2 ^ 1024 ≤ quantity_in_stock acme_bulk ∧
  sell (2 ^ 1024) acme_bulk =
    (assign_quantity_in_stock 0 acme_bulk,
     Raise (OverflowError "int too large to convert to float")).
Proof.
  split.
  - vm_compute. split; discriminate.
  - vm_compute. reflexivity.
Qed.

(** Where the conversion of an int to a float stops: the largest float is
    [2 ** 1024 - 2 ** 971], and an int rounds to it or overflows. *)
Example float_of_int_range :
  float_of_int 3 = Ret 3%float ∧
  float_of_int (2 ^ 1024 - 2 ^ 970 - 1) = Ret 0x1.fffffffffffffp+1023%float ∧
  float_of_int (2 ^ 1024 - 2 ^ 970) =
    Raise (OverflowError "int too large to convert to float").
Proof. split_and!; by vm_compute. Qed.

(** The scenario of the specification, run: 3 of 5 units sold for 300.0,
    then a second sale of 3 refused with 2 available. *)
Example sell_scenario :
  sell 3 acme_tv = (assign_quantity_in_stock 2 acme_tv, Ret 300%float) ∧
  sell 3 (assign_quantity_in_stock 2 acme_tv) =
    (assign_quantity_in_stock 2 acme_tv, Raise (InsufficientStockError "E1" 3 2)).
Proof. split; reflexivity. Qed.

Lemma sell_negative self quantity :
  quantity < 0 →
  sell quantity self = (self, Raise (ValueError "Sale quantity cannot be negative")).
Proof.
  intros Hneg. unfold sell. by destruct (Z.ltb_spec quantity 0); [|lia].
Qed.

Lemma sell_insufficient self quantity :
  0 ≤ quantity → quantity_in_stock self < quantity →
  sell quantity self =
    (self, Raise (InsufficientStockError (product_id self) quantity (quantity_in_stock self))).
Proof.
  intros Hq Hmore. unfold sell.
  destruct (Z.ltb_spec quantity 0); [lia|].
  by destruct (Z.gtb_spec quantity (quantity_in_stock self)); [|lia].
Qed.



(** ** Non-negative price and stock *)

(** C4, at the input on which the code departs from it: the constructors
    check nothing, so a negative price and a negative quantity are stored as
    given. *)
Theorem constructors_accept_negative {B : Builtins} :
  Electronics_init (PStr "E1") (PStr "TV") (PFloat (-5)) (PInt (-3)) (PInt 2) (PStr "Acme")
    = Ret (Electronics {| _product_id := "E1"; _name := "TV"; _price := (-5)%float;
                          _quantity_in_stock := -3 |} 2 "Acme") ∧
  Clothing_init (PStr "C1") (PStr "Shirt") (PFloat (-5)) (PInt (-3)) (PStr "M") (PStr "Cotton")
    = Ret (Clothing {| _product_id := "C1"; _name := "Shirt"; _price := (-5)%float;
                       _quantity_in_stock := -3 |} "M" "Cotton") ∧
  PrimFloat.ltb (-5) 0 = true ∧ -3 < 0.
Proof. repeat split. Qed.

(** The sibling path: the [price] setter refuses what [__init__] accepts. *)
Lemma set_price_rejects_negative self :
  set_price (-5) self = (self, Raise (ValueError "Price cannot be negative")).
Proof. reflexivity. Qed.

(** After construction the three mutators keep a price that is not negative
    and a stock that is not negative. *)
Lemma set_price_keeps_not_negative self new_price self' :
  set_price new_price self = (self', Ret ()) →
  PrimFloat.ltb (price self') 0 = false ∧ quantity_in_stock self' = quantity_in_stock self.
Proof.
  unfold set_price. destruct (PrimFloat.ltb new_price 0) eqn:Hlt; [intros [=]|].
  intros [= <-]. by destruct self.
Qed.

Lemma valid_calls_stock self calls self' :
  valid_calls self calls self' →
  price self' = price self ∧
  quantity_in_stock self' = quantity_in_stock self + stock_change calls ∧
  (0 ≤ quantity_in_stock self → 0 ≤ quantity_in_stock self').
Proof.
  induction 1 as [self|self quantity total self' calls self'' Hsell _ IH
                 |self amount self' calls self'' Hrestock _ IH]; simpl.
  - repeat split; [lia | done].
  - apply sell_returns_inv in Hsell as [Hrange ->].
    rewrite price_assign_quantity_in_stock, quantity_in_stock_assign in IH.
    destruct IH as (-> & -> & Hpos). repeat split; lia.
  - apply restock_returns_inv in Hrestock as [Hrange ->].
    rewrite price_assign_quantity_in_stock, quantity_in_stock_assign in IH.
    destruct IH as (-> & -> & Hpos). repeat split; lia.
Qed.

(** ** Total value *)

Lemma mapM_get_total_value products totals :
  Forall2 (λ product total, get_total_value product = Ret total) products totals →
  mapM get_total_value products = Ret totals.
Proof.
  induction 1 as [|product total products totals Hhead _ IH]; [done|].
  simpl. rewrite Hhead. simpl. by rewrite IH.
Qed.



(** ** Search by type *)

Lemma PRODUCT_TYPES_None tag : PRODUCT_TYPES tag = None ↔ tag ∉ known_tags.
Proof.
  unfold PRODUCT_TYPES, known_tags. rewrite !not_elem_of_cons.
  destruct (decide (tag = "Electronics")) as [->|?];
    [|destruct (decide (tag = "Grocery")) as [->|?];
      [|destruct (decide (tag = "Clothing")) as [->|?]]].
  4: { split; [intros _|done]. split_and!; [done..|apply not_elem_of_nil]. }
  all: split; [intros [=] | intros (? & ? & ? & _); done].
Qed.

Lemma isinstance_class_name product tag cls :
  PRODUCT_TYPES tag = Some cls →
  isinstance product cls ↔ class_name product = tag.
Proof.
  unfold PRODUCT_TYPES.
  destruct (decide (tag = "Electronics")) as [->|?];
    [|destruct (decide (tag = "Grocery")) as [->|?];
      [|destruct (decide (tag = "Clothing")) as [->|?]]];
    intros [= <-]; by destruct product.
Qed.

(** C8. [search_by_type(tag)] raises [InvalidProductTypeError] if and only if
    [tag] is none of the three known tags, and raises nothing else; for a
    known tag it returns the stored products of that variant (in the order of
    the store); the store after the call is the store before it. *)
Theorem search_by_type_known_tags tag (self : Inventory) :
  (search_by_type tag self).1 = self ∧
  ((search_by_type tag self).2 = Raise (InvalidProductTypeError tag) ↔ tag ∉ known_tags) ∧
  ((∃ e, (search_by_type tag self).2 = Raise e) ↔ tag ∉ known_tags) ∧
  (tag ∈ known_tags →
     (search_by_type tag self).2 =
       Ret (filter (λ product, class_name product = tag) (values self))).
Proof.
  unfold search_by_type.
  destruct (PRODUCT_TYPES tag) as [cls|] eqn:Hcls; simpl.
  - assert (¬ (tag ∉ known_tags)) as Hknown.
    { rewrite <- PRODUCT_TYPES_None, Hcls. done. }
    split_and!; [done | split; [done | intros ?; done] | split; [intros [e [=]] | done] |].
    intros _. f_equal. apply list_filter_iff. intros product.
    by apply isinstance_class_name.
  - assert (tag ∉ known_tags) as Hunknown by by apply PRODUCT_TYPES_None.
    split_and!; [done | done | split; eauto | done].
Qed.

Lemma search_by_type_known_tags_witness :
  (search_by_type "Electronics" [("E1", acme_tv)]).2 =
    Ret (filter (λ product, class_name product = "Electronics") (values [("E1", acme_tv)])).
Proof.
  apply (search_by_type_known_tags "Electronics" [("E1", acme_tv)]).
  unfold known_tags. left.
Defined.

Example search_by_type_unknown :
  search_by_type "Furniture" [("E1", acme_tv)] =
    ([("E1", acme_tv)], Raise (InvalidProductTypeError "Furniture")).
Proof. reflexivity. Qed.

(** ** Expiry sweep *)

#[global] Instance strictly_after_dec a b : Decision (strictly_after a b).
Proof. unfold strictly_after. apply _. Defined.

#[global] Instance expired_grocery_dec today product :
  Decision (expired_grocery today product).
Proof. destruct product; simpl; apply _. Defined.

Lemma date_gt_strictly_after a b : date_gt a b = true ↔ strictly_after a b.
Proof.
  unfold date_gt, strictly_after.
  rewrite !orb_true_iff, !andb_true_iff, !orb_true_iff, !andb_true_iff.
  rewrite !Z.ltb_lt, !Z.eqb_eq. done.
Qed.

Lemma sweep_step_expired today products expired_ids product_id product :
  expired_grocery today product →
  sweep_step today (products, expired_ids) (product_id, product) =
    (dict_del product_id products, expired_ids ++ [product_id]).
Proof.
  destruct product as [| c d |]; simpl; [done| |done].
  intros Hexp. unfold is_expired.
  by apply date_gt_strictly_after in Hexp as ->.
Qed.

Lemma sweep_step_kept today products expired_ids product_id product :
  ¬ expired_grocery today product →
  sweep_step today (products, expired_ids) (product_id, product) =
    (products, expired_ids).
Proof.
  destruct product as [| c d |]; simpl; [done| |done].
  intros Hexp. unfold is_expired.
  destruct (date_gt today d) eqn:Hgt; [|done].
  by apply date_gt_strictly_after in Hgt.
Qed.

Lemma dict_del_absent k (d : Inventory) : k ∉ d.*1 → dict_del k d = d.
Proof.
  unfold dict_del. induction d as [|[k' v] d IH]; simpl; [done|].
  rewrite not_elem_of_cons. intros [Hne Hnotin].
  rewrite filter_cons_True by (simpl; congruence). by rewrite IH.
Qed.

Lemma dict_del_middle k v (d1 d2 : Inventory) :
  k ∉ d1.*1 → k ∉ d2.*1 → dict_del k (d1 ++ (k, v) :: d2) = d1 ++ d2.
Proof.
  intros H1 H2. unfold dict_del.
  rewrite filter_app, filter_cons_False by (simpl; intros Hne; by apply Hne).
  fold (dict_del k d1). fold (dict_del k d2).
  by rewrite !dict_del_absent.
Qed.

(** The loop, started after the items [kept] were visited and retained. *)
Lemma sweep_loop today (rest kept : Inventory) expired_ids :
  NoDup (kept ++ rest).*1 →
  foldl (sweep_step today) (kept ++ rest, expired_ids) rest =
    (kept ++ filter (λ item, ¬ expired_grocery today item.2) rest,
     expired_ids ++ (filter (λ item, expired_grocery today item.2) rest).*1).
Proof.
  revert kept expired_ids.
  induction rest as [|[k product] rest IH]; intros kept expired_ids Hnodup;
    cbn [foldl].
  { by rewrite filter_nil, !app_nil_r. }
  destruct (decide (expired_grocery today product)) as [Hexp|Hkept].
  - rewrite sweep_step_expired by done.
    rewrite fmap_app, fmap_cons in Hnodup. simpl in Hnodup.
    apply NoDup_app in Hnodup as (Hkept_nodup & Hdisjoint & Hrest_nodup).
    apply NoDup_cons in Hrest_nodup as [Hk_rest Hrest_nodup].
    rewrite dict_del_middle; [|intros Hin; apply (Hdisjoint _ Hin); left|done].
    rewrite IH.
    + rewrite filter_cons_False by (simpl; tauto).
      rewrite filter_cons_True by done.
      simpl. by rewrite <- app_assoc.
    + rewrite fmap_app. apply NoDup_app. split_and!; [done| |done].
      intros x Hx Hx'. apply (Hdisjoint x Hx). by right.
  - rewrite sweep_step_kept by done.
    rewrite (cons_middle (k, product) kept rest), app_assoc.
    rewrite IH by (by rewrite <- app_assoc).
    rewrite filter_cons_True by done.
    rewrite filter_cons_False by done.
    by rewrite <- app_assoc.
Qed.

(** C6. On a store (a dict: no key twice), [sweep_expired] leaves in the store
    the products that are not Grocery products past their expiry date on the
    day of the call, each as it was and in the order of the store, removes the
    others, and returns the ids of the removed products in the store's
    insertion order. *)
Theorem remove_expired_products_sweeps today (self : Inventory) :
  NoDup self.*1 →
  remove_expired_products today self =
    (filter (λ item, ¬ expired_grocery today item.2) self,
     Ret (filter (λ item, expired_grocery today item.2) self).*1).
Proof.
  intros Hnodup. unfold remove_expired_products.
  pose proof (sweep_loop today self [] [] Hnodup) as Hloop.
  simpl in Hloop. by rewrite Hloop.
Qed.

(** The scenario of the specification, in a store of four products: only the
    Grocery product that expired in 2000 goes. *)
Lemma remove_expired_products_sweeps_witness :
  remove_expired_products (Date 2024 6 15) sample_store =
    (filter (λ item, ¬ expired_grocery (Date 2024 6 15) item.2) sample_store,
     Ret (filter (λ item, expired_grocery (Date 2024 6 15) item.2) sample_store).*1).
Proof.
  apply (remove_expired_products_sweeps (Date 2024 6 15) sample_store).
  apply (bool_decide_unpack _). vm_compute. reflexivity.
Defined.

Example remove_expired_products_scenario :
  remove_expired_products (Date 2024 6 15) sample_store =
    ([("E1", acme_tv); ("G2", long_life_rice); ("C1", cotton_shirt)], Ret ["G1"]).
Proof. reflexivity. Qed.

(** ** Search by name *)

Lemma N_of_ascii_inj a b : N_of_ascii a = N_of_ascii b → a = b.
Proof.
  intros Heq. rewrite <- (ascii_N_embedding a), <- (ascii_N_embedding b).
  by rewrite Heq.
Qed.

Lemma N_of_lower_ascii c :
  N_of_ascii (lower_ascii c) =
    (if (65 <=? N_of_ascii c) && (N_of_ascii c <=? 90)
     then N_of_ascii c + 32 else N_of_ascii c)%N.
Proof.
  unfold lower_ascii.
  destruct ((65 <=? N_of_ascii c) && (N_of_ascii c <=? 90))%N eqn:Hupper; [|done].
  apply andb_true_iff in Hupper as [_ Hle%N.leb_le].
  apply N_ascii_embedding. lia.
Qed.

Lemma same_letter_lower a b : same_letter a b ↔ lower_ascii a = lower_ascii b.
Proof.
  assert (lower_ascii a = lower_ascii b ↔
          N_of_ascii (lower_ascii a) = N_of_ascii (lower_ascii b)) as ->.
  { split; [by intros -> | apply N_of_ascii_inj]. }
  assert (a = b ↔ N_of_ascii a = N_of_ascii b) as Hcode.
  { split; [by intros -> | apply N_of_ascii_inj]. }
  unfold same_letter, is_upper. rewrite Hcode, !N_of_lower_ascii.
  destruct (N.leb_spec 65 (N_of_ascii a)), (N.leb_spec (N_of_ascii a) 90),
    (N.leb_spec 65 (N_of_ascii b)), (N.leb_spec (N_of_ascii b) 90); simpl; lia.
Qed.

Lemma same_text_lower s t : same_text s t ↔ lower s = lower t.
Proof.
  split.
  - induction 1 as [|a b s t Hletter _ IH]; [done|].
    simpl. apply same_letter_lower in Hletter. by rewrite Hletter, IH.
  - revert t. induction s as [|a s IH]; intros [|b t]; simpl; try done.
    + intros _. constructor.
    + intros [= Hletter Hrest]. constructor; [by apply same_letter_lower | by apply IH].
Qed.

Lemma string_app_empty (s : string) : EmptyString +:+ s = s.
Proof. reflexivity. Qed.

Lemma string_app_String a (s t : string) : String a s +:+ t = String a (s +:+ t).
Proof. reflexivity. Qed.

Lemma lower_app s t : lower (s +:+ t) = lower s +:+ lower t.
Proof.
  induction s as [|a s IH]; [done|].
  simpl. rewrite !string_app_String. simpl. by rewrite IH.
Qed.

(** A text whose lower-casing splits in two splits in two itself. *)
Lemma lower_split s a b :
  lower s = a +:+ b → ∃ s1 s2, s = s1 +:+ s2 ∧ lower s1 = a ∧ lower s2 = b.
Proof.
  revert s. induction a as [|c a IH]; intros s.
  - rewrite string_app_empty. intros Heq. exists EmptyString, s. by rewrite string_app_empty.
  - rewrite string_app_String.
    destruct s as [|c' s]; simpl; [done|]. intros [= Hc Hrest].
    destruct (IH _ Hrest) as (s1 & s2 & -> & <- & <-).
    exists (String c' s1), s2. rewrite string_app_String. simpl. by rewrite Hc.
Qed.

Lemma starts_with_spec sub s : starts_with sub s = true ↔ ∃ post, s = sub +:+ post.
Proof.
  revert s. induction sub as [|a sub IH]; intros s; simpl.
  - split; [intros _; exists s; reflexivity | done].
  - setoid_rewrite string_app_String.
    destruct s as [|b s]; [split; [done | by intros [post [=]]]|].
    rewrite andb_true_iff, Ascii.eqb_eq, IH. split.
    + intros [-> [post ->]]. by exists post.
    + intros [post [= -> ->]]. split; [done | by exists post].
Qed.

Lemma str_in_occurs sub s : str_in sub s = true ↔ ∃ pre post, s = pre +:+ sub +:+ post.
Proof.
  induction s as [|a s IH]; simpl.
  - rewrite orb_false_r, starts_with_spec. split.
    + intros [post Hpost]. exists EmptyString, post. by rewrite string_app_empty.
    + intros (pre & post & Heq). destruct pre; [by exists post | done].
  - rewrite orb_true_iff, starts_with_spec, IH. split.
    + intros [[post Hpost] | (pre & post & ->)].
      * exists EmptyString, post. by rewrite string_app_empty.
      * exists (String a pre), post. by rewrite string_app_String.
    + intros (pre & post & Heq). destruct pre as [|a' pre].
      * left. by exists post.
      * right. rewrite string_app_String in Heq. injection Heq as _ ->.
        by exists pre, post.
Qed.

(** The test of [search_by_name] decides containment up to case. *)
Lemma str_in_lower sub s :
  str_in (lower sub) (lower s) = true ↔ contains_ignoring_case sub s.
Proof.
  rewrite str_in_occurs. unfold contains_ignoring_case. split.
  - intros (pre' & post' & Heq).
    apply lower_split in Heq as (pre & rest & -> & _ & Hrest).
    apply lower_split in Hrest as (mid & post & -> & Hmid & _).
    exists pre, mid, post. split; [done | by apply same_text_lower].
  - intros (pre & mid & post & -> & Hsame%same_text_lower).
    exists (lower pre), (lower post). by rewrite !lower_app, Hsame.
Qed.

#[global] Instance contains_ignoring_case_dec sub s :
  Decision (contains_ignoring_case sub s).
Proof.
  destruct (str_in (lower sub) (lower s)) eqn:Htest.
  - left. by apply str_in_lower.
  - right. intros Hin%str_in_lower. congruence.
Defined.

Lemma str_in_empty s : str_in EmptyString s = true.
Proof. by destruct s. Qed.


Example search_by_name_scenario :
  search_by_name "SHIRT" sample_store = (sample_store, Ret [cotton_shirt]) ∧
  search_by_name "t" sample_store = (sample_store, Ret [acme_tv; cotton_shirt]) ∧
  search_by_name EmptyString sample_store =
    (sample_store, Ret [acme_tv; old_milk; long_life_rice; cotton_shirt]).
Proof. repeat split. Qed.


(** ** Persistence *)

Lemma bind_Ret {A B} (a : A) (k : A → outcome B) : Ret a ≫= k = k a.
Proof. reflexivity. Qed.

Lemma dict_contains_elem k (d : Inventory) : dict_contains k d = true ↔ k ∈ d.*1.
Proof. unfold dict_contains. by rewrite bool_decide_eq_true. Qed.

Lemma dict_set_absent k v (d : Inventory) : k ∉ d.*1 → dict_set k v d = d ++ [(k, v)].
Proof.
  induction d as [|[k' v'] d IH]; simpl; [done|].
  rewrite not_elem_of_cons. intros [Hne Hnotin].
  destruct (decide (k = k')); [done|]. by rewrite IH.
Qed.

Lemma add_product_fresh product (self : Inventory) :
  product_id product ∉ self.*1 →
  add_product product self = (self ++ [(product_id product, product)], Ret ()).
Proof.
  intros Hfresh. unfold add_product.
  destruct (dict_contains (product_id product) self) eqn:Hin.
  - by apply dict_contains_elem in Hin.
  - by rewrite dict_set_absent.
Qed.

Lemma add_product_duplicate product (self : Inventory) :
  product_id product ∈ self.*1 →
  add_product product self = (self, Raise (DuplicateProductError (product_id product))).
Proof.
  intros Hin. unfold add_product.
  by apply dict_contains_elem in Hin as ->.
Qed.

(** The stores the code builds are valid: the empty one is, and [add_product]
    keeps a store valid. *)
Lemma valid_store_empty : valid_store [].
Proof. split; [apply NoDup_nil_2 | apply Forall_nil_2]. Qed.

Lemma add_product_valid_store product (self self' : Inventory) :
  valid_store self → valid_product product →
  add_product product self = (self', Ret ()) → valid_store self'.
Proof.
  intros [Hnodup Hall] Hvalid. unfold add_product.
  destruct (dict_contains (product_id product) self) eqn:Hin; [intros [=]|].
  assert (product_id product ∉ self.*1) as Hfresh.
  { rewrite <- dict_contains_elem. congruence. }
  rewrite dict_set_absent by done. intros [= <-]. split.
  - rewrite fmap_app. apply NoDup_app. split_and!; [done| |apply NoDup_singleton].
    intros k Hk Hk'%list_elem_of_singleton. simpl in Hk'. by subst.
  - apply Forall_app. split; [done|]. by apply Forall_singleton.
Qed.

Section Load.
Context {B : Builtins}.

Lemma pop_type_to_dict product :
  pop_type (PDict (to_dict product)) =
    Ret (PStr (class_name product), delete "type" (to_dict product)).
Proof.
  destruct product as [c w b | c d | c s m]; unfold to_dict, Product_to_dict;
    try generalize (isoformat d); intros; by vm_compute.
Qed.

Lemma lookup_class_class_name product :
  lookup_class (PStr (class_name product)) = Ret (class_of product).
Proof. by destruct product. Qed.

(** The keyword call finds each attribute of the object under the name of
    the parameter it came from. *)
Lemma call_class_to_dict_Electronics c w b :
  call_class ElectronicsClass (delete "type" (to_dict (Electronics c w b))) =
    Electronics_init (PStr (_product_id c)) (PStr (_name c)) (PFloat (_price c))
                     (PInt (_quantity_in_stock c)) (PInt w) (PStr b).
Proof. by vm_compute. Qed.

Lemma call_class_to_dict_Grocery c d :
  call_class GroceryClass (delete "type" (to_dict (Grocery c d))) =
    Grocery_init (PStr (_product_id c)) (PStr (_name c)) (PFloat (_price c))
                 (PInt (_quantity_in_stock c)) (PStr (isoformat d)).
Proof.
  unfold to_dict, Product_to_dict. generalize (isoformat d). intros iso.
  by vm_compute.
Qed.

Lemma call_class_to_dict_Clothing c s m :
  call_class ClothingClass (delete "type" (to_dict (Clothing c s m))) =
    Clothing_init (PStr (_product_id c)) (PStr (_name c)) (PFloat (_price c))
                  (PInt (_quantity_in_stock c)) (PStr s) (PStr m).
Proof. by vm_compute. Qed.

Hypothesis parse_isoformat :
  ∀ d, valid_date d = true → dateutil_parse (isoformat d) = Ret d.

(** Deserialising what [to_dict] produced gives the object back. *)
Lemma call_class_to_dict product :
  valid_product product →
  call_class (class_of product) (delete "type" (to_dict product)) = Ret product.
Proof.
  destruct product as [c w b | c d | c s m]; intros Hvalid; cbn [class_of].
  - rewrite call_class_to_dict_Electronics. by destruct c.
  - rewrite call_class_to_dict_Grocery. unfold Grocery_init. destruct c; simpl.
    by rewrite parse_isoformat.
  - rewrite call_class_to_dict_Clothing. by destruct c.
Qed.

Lemma load_entry_to_dict (inventory : Inventory) product :
  valid_product product → product_id product ∉ inventory.*1 →
  load_entry inventory (PDict (to_dict product)) =
    Ret (inventory ++ [(product_id product, product)]).
Proof.
  intros Hvalid Hfresh. unfold load_entry.
  rewrite pop_type_to_dict, bind_Ret.
  rewrite lookup_class_class_name, bind_Ret.
  rewrite call_class_to_dict, bind_Ret by done.
  by rewrite add_product_fresh.
Qed.

Lemma load_entries_to_dict (items inventory : Inventory) :
  valid_store (inventory ++ items) →
  load_entries inventory ((λ product, PDict (to_dict product)) <$> values items) =
    Ret (inventory ++ items).
Proof.
  revert inventory. induction items as [|[k product] items IH]; intros inventory Hvalid.
  { by rewrite app_nil_r. }
  destruct Hvalid as [Hnodup Hall]. simpl.
  pose proof Hall as Hitem. rewrite Forall_app, Forall_cons in Hitem.
  destruct Hitem as (_ & [Hkey Hproduct] & _). simpl in Hkey, Hproduct. subst k.
  rewrite load_entry_to_dict; [|done|].
  - rewrite bind_Ret.
    replace (inventory ++ (product_id product, product) :: items)
      with ((inventory ++ [(product_id product, product)]) ++ items)
      by (by rewrite <- app_assoc).
    apply IH. split; by rewrite <- app_assoc.
  - rewrite fmap_app in Hnodup. apply NoDup_app in Hnodup as (_ & Hdisjoint & _).
    intros Hin. apply (Hdisjoint _ Hin). left.
Qed.


End Load.

(** The ISO parser reads back what [isoformat] prints. *)
Lemma digit_value_digit n : digit_value (digit n) = Some (n mod 10).
Proof.
  unfold digit. assert (0 ≤ n mod 10 < 10) as Hrange by (apply Z.mod_pos_bound; lia).
  remember (n mod 10) as k eqn:Hk. clear Hk.
  assert (k = 0 ∨ k = 1 ∨ k = 2 ∨ k = 3 ∨ k = 4 ∨ k = 5 ∨ k = 6 ∨ k = 7 ∨ k = 8 ∨ k = 9)
    as Hcases by lia.
  repeat (destruct Hcases as [->|Hcases]; [reflexivity|]). by subst.
Qed.

Lemma number_digits2 n :
  0 ≤ n < 100 → number (list_ascii_of_string (digits2 n)) = Some n.
Proof.
  intros Hrange. unfold number, digits2. cbn [list_ascii_of_string foldl].
  rewrite !digit_value_digit. cbn [mbind option_bind].
  f_equal. Z.div_mod_to_equations. lia.
Qed.

Lemma number_digits4 n :
  0 ≤ n < 10000 → number (list_ascii_of_string (digits4 n)) = Some n.
Proof.
  intros Hrange. unfold number, digits4, digits2. cbn [list_ascii_of_string foldl].
  rewrite !digit_value_digit. cbn [mbind option_bind].
  f_equal. Z.div_mod_to_equations. lia.
Qed.

Lemma parse_iso_isoformat d : valid_date d = true → parse_iso (isoformat d) = Ret d.
Proof.
  intros Hvalid. pose proof Hvalid as Hfields. unfold valid_date in Hfields.
  rewrite !andb_true_iff, !Z.leb_le in Hfields.
  destruct Hfields as (((((Hy1 & Hy2) & Hm1) & Hm2) & Hd1) & Hd2).
  assert (day d ≤ 31) as Hd3.
  { unfold days_in_month in Hd2.
    repeat match type of Hd2 with context [if ?b then _ else _] => destruct b end; lia. }
  pose proof (number_digits4 (year d)) as Hyear.
  pose proof (number_digits2 (month d)) as Hmonth.
  pose proof (number_digits2 (day d)) as Hday.
  unfold digits4, digits2 in Hyear, Hmonth, Hday.
  cbn [list_ascii_of_string] in Hyear, Hmonth, Hday.
  unfold parse_iso, isoformat, digits4, digits2.
  cbv [String.append]. cbn [list_ascii_of_string].
  rewrite Hyear, Hmonth, Hday by lia.
  destruct d as [y m dd]. simpl in *. by rewrite Hvalid.
Qed.

Lemma sample_store_valid : valid_store sample_store.
Proof.
  split.
  - apply (bool_decide_unpack _). by vm_compute.
  - repeat constructor.
Qed.


Example load_save_scenario :
  load_from_file (B := iso_builtins)
                 (save_to_file "inventory.json" sample_store ∅) "inventory.json"
    = Ret sample_store.
Proof. by vm_compute. Qed.

(** ** Failures of [load] *)

Section LoadFailures.
Context {B : Builtins}.

(** C10. A file holding a JSON object without a "products" key loads as an
    empty inventory: the missing key defaults to the empty list. *)
Theorem load_without_products_key (fs : filesystem) filename d :
  fs !! filename = Some (Document (PDict d)) →
  d !! "products" = None →
  load_from_file fs filename = Ret [].
Proof.
  intros Hfile Hkey.
  unfold load_from_file, load_from_file_try, read_json, get_products.
  by rewrite Hfile, bind_Ret, Hkey.
Qed.

Lemma load_entries_app (inventory : Inventory) items1 items2 :
  load_entries inventory (items1 ++ items2) =
    inventory' ← load_entries inventory items1; load_entries inventory' items2.
Proof.
  revert inventory. induction items1 as [|item items1 IH]; intros inventory; [done|].
  simpl. destruct (load_entry inventory item) as [inventory'| |]; [|done..].
  rewrite !bind_Ret. apply IH.
Qed.

(** Where the loop stands when it reaches an entry, the entries before it
    having been added. *)
Lemma load_from_file_try_at_entry (fs : filesystem) filename d before entry after
    (inventory : Inventory) :
  fs !! filename = Some (Document (PDict d)) →
  d !! "products" = Some (PList (before ++ entry :: after)) →
  load_entries [] before = Ret inventory →
  load_from_file_try [] fs filename =
    inventory' ← load_entry inventory entry; load_entries inventory' after.
Proof.
  intros Hfile Hproducts Hbefore.
  unfold load_from_file_try, read_json, get_products.
  rewrite Hfile, bind_Ret, Hproducts.
  change (load_entries [] (before ++ entry :: after) =
          inventory' ← load_entry inventory entry; load_entries inventory' after).
  by rewrite load_entries_app, Hbefore, bind_Ret.
Qed.

(** What the inner handler makes of a failure to create or add a product. *)
Lemma load_entry_creation_fails (inventory : Inventory) entry product_type kwargs cls e :
  pop_type entry = Ret (product_type, kwargs) →
  lookup_class product_type = Ret cls →
  (product ← call_class cls kwargs;
   let '(inventory, result) := add_product product inventory in
   _ ← result; Ret inventory) = Raise e →
  load_entry inventory entry =
    Raise (InvalidProductDataError ("Error creating product: " +:+ exn_str e)).
Proof.
  intros Hpop Hcls Hfail. unfold load_entry.
  by rewrite Hpop, bind_Ret, Hcls, bind_Ret, Hfail.
Qed.

(** C5. [load] raises nothing but [InvalidProductDataError]:
    - whatever it raises is of that kind;
    - a file that is not JSON gives the message "Invalid JSON file";
    - an entry whose tag is a string other than the three known ones gives a
      message that ends with "Unknown product type: " and the tag;
    - a failure of the constructor, and a product id already loaded from the
      same file ([DuplicateProductError] from [add_product]), are wrapped with
      their own message;
    - a file that cannot be opened, and a document that is not an object, are
      wrapped with their own message. *)
Theorem load_raises_only_InvalidProductData (fs : filesystem) filename :
  (∀ e, load_from_file fs filename = Raise e →
        ∃ message, e = InvalidProductDataError message) ∧
  (∀ error, fs !! filename = Some (Malformed error) →
     load_from_file fs filename = Raise (InvalidProductDataError "Invalid JSON file")) ∧
  (∀ d before entry after (inventory : Inventory) tag,
     fs !! filename = Some (Document (PDict d)) →
     d !! "products" = Some (PList (before ++ PDict entry :: after)) →
     load_entries [] before = Ret inventory →
     entry !! "type" = Some (PStr tag) → tag ∉ known_tags →
     load_from_file fs filename =
       Raise (InvalidProductDataError
                ("Error loading inventory: Invalid product data: Unknown product type: "
                 +:+ tag))) ∧
  (∀ d before entry after (inventory : Inventory) product_type kwargs cls e,
     fs !! filename = Some (Document (PDict d)) →
     d !! "products" = Some (PList (before ++ entry :: after)) →
     load_entries [] before = Ret inventory →
     pop_type entry = Ret (product_type, kwargs) →
     lookup_class product_type = Ret cls →
     (call_class cls kwargs = Raise e ∨
      ∃ product, call_class cls kwargs = Ret product ∧
                 product_id product ∈ inventory.*1 ∧
                 e = DuplicateProductError (product_id product)) →
     load_from_file fs filename =
       Raise (InvalidProductDataError
                ("Error loading inventory: Invalid product data: Error creating product: "
                 +:+ exn_str e))) ∧
  (fs !! filename = None →
     ∃ message, load_from_file fs filename =
       Raise (InvalidProductDataError ("Error loading inventory: " +:+ message))) ∧
  (∀ data, fs !! filename = Some (Document data) →
     (∀ d, data ≠ PDict d) →
     ∃ message, load_from_file fs filename =
       Raise (InvalidProductDataError ("Error loading inventory: " +:+ message))).
Proof.
  split_and!.
  - intros e. unfold load_from_file.
    destruct (load_from_file_try [] fs filename) as [inventory|e'|]; [done| |done].
    destruct e'; intros [= <-]; eauto.
  - intros error Hfile. unfold load_from_file, load_from_file_try, read_json.
    by rewrite Hfile.
  - intros d before entry after inventory tag Hfile Hproducts Hbefore Htag Hunknown.
    unfold load_from_file.
    rewrite (load_from_file_try_at_entry _ _ _ _ _ _ _ Hfile Hproducts Hbefore).
    unfold load_entry, pop_type. rewrite bind_Ret, Htag. simpl.
    by apply PRODUCT_TYPES_None in Hunknown as ->.
  - intros d before entry after inventory product_type kwargs cls e
      Hfile Hproducts Hbefore Hpop Hcls Hfail.
    unfold load_from_file.
    rewrite (load_from_file_try_at_entry _ _ _ _ _ _ _ Hfile Hproducts Hbefore).
    rewrite (load_entry_creation_fails _ _ _ _ _ e Hpop Hcls); [done|].
    destruct Hfail as [->|(product & -> & Hin & ->)]; [done|].
    by rewrite bind_Ret, add_product_duplicate.
  - intros Hfile. unfold load_from_file, load_from_file_try, read_json.
    rewrite Hfile. simpl. eauto.
  - intros data Hfile Hnot_dict.
    unfold load_from_file, load_from_file_try, read_json, get_products.
    rewrite Hfile, bind_Ret.
    destruct data; simpl; eauto. by destruct (Hnot_dict entries).
Qed.

End LoadFailures.

Lemma load_without_products_key_witness :
  load_from_file (B := iso_builtins) no_products_files "inventory.json" = Ret [].
Proof.
  apply (load_without_products_key (B := iso_builtins)
           no_products_files "inventory.json" no_products_document).
  - reflexivity.
  - reflexivity.
Defined.

(** The scenario of the specification: an entry of type "Furniture". *)
Lemma load_raises_only_InvalidProductData_witness :
  load_from_file (B := iso_builtins) furniture_files "inventory.json" =
    Raise (InvalidProductDataError
             ("Error loading inventory: Invalid product data: Unknown product type: "
              +:+ "Furniture")).
Proof.
  apply (proj1 (proj2 (proj2 (load_raises_only_InvalidProductData (B := iso_builtins)
                                furniture_files "inventory.json")))
           furniture_document [PDict (to_dict acme_tv)] furniture_entry []
           [("E1", acme_tv)] "Furniture").
  - reflexivity.
  - reflexivity.
  - by vm_compute.
  - reflexivity.
  - apply PRODUCT_TYPES_None. reflexivity.
Defined.

Example load_scenarios :
  load_from_file (B := iso_builtins) furniture_files "inventory.json" =
    Raise (InvalidProductDataError
      "Error loading inventory: Invalid product data: Unknown product type: Furniture") ∧
  load_from_file (B := iso_builtins) duplicate_files "inventory.json" =
    Raise (InvalidProductDataError
      "Error loading inventory: Invalid product data: Error creating product: Product with ID E1 already exists in inventory") ∧
  load_from_file (B := iso_builtins) {[ "inventory.json" := Malformed "Expecting value" ]}
                 "inventory.json" =
    Raise (InvalidProductDataError "Invalid JSON file") ∧
  load_from_file (B := iso_builtins) ∅ "inventory.json" =
    Raise (InvalidProductDataError
      "Error loading inventory: [Errno 2] No such file or directory: 'inventory.json'").
Proof. split_and!; by vm_compute. Qed.

(** * Further properties of the code *)

(** ** Product: restock, sell and the price setter *)

Lemma assign_quantity_in_stock_same self :
  assign_quantity_in_stock (quantity_in_stock self) self = self.
Proof. by destruct self as [[] ? ?|[] ?|[] ? ?]. Qed.

Lemma assign_quantity_in_stock_twice v w self :
  assign_quantity_in_stock w (assign_quantity_in_stock v self) =
    assign_quantity_in_stock w self.
Proof. by destruct self. Qed.

Lemma restock_accepted self amount :
  0 ≤ amount →
  restock amount self =
    (assign_quantity_in_stock (quantity_in_stock self + amount) self, Ret ()).
Proof. intros Hamount. unfold restock. by destruct (Z.ltb_spec amount 0); [lia|]. Qed.

(** X1. [restock(amount)] raises [ValueError] exactly when [amount < 0], and
    then leaves the product as it was; otherwise it adds [amount] to the stock
    and changes nothing else (price, id, name, class). *)
Theorem restock_outcome self amount :
  (amount < 0 →
     restock amount self = (self, Raise (ValueError "Restock amount cannot be negative"))) ∧
  (0 ≤ amount →
     ∃ self', restock amount self = (self', Ret ()) ∧
       quantity_in_stock self' = quantity_in_stock self + amount ∧
       price self' = price self ∧ product_id self' = product_id self ∧
       name self' = name self ∧ class_name self' = class_name self).
Proof.
  split.
  - intros Hneg. unfold restock. by destruct (Z.ltb_spec amount 0); [|lia].
  - intros Hamount. eexists. split; [by apply restock_accepted|].
    by destruct self.
Qed.

Lemma restock_outcome_witness :
  ∃ self', restock 4 acme_tv = (self', Ret ()) ∧
    quantity_in_stock self' = quantity_in_stock acme_tv + 4 ∧
    price self' = price acme_tv ∧ product_id self' = product_id acme_tv ∧
    name self' = name acme_tv ∧ class_name self' = class_name acme_tv.
Proof. apply (proj2 (restock_outcome acme_tv 4)). vm_compute. discriminate. Defined.

(** X2. Two restocks in a row leave the product that one restock of the sum
    leaves. *)
Theorem restock_restock self a b self1 self2 :
  restock a self = (self1, Ret ()) →
  restock b self1 = (self2, Ret ()) →
  restock (a + b) self = (self2, Ret ()).
Proof.
  intros [Ha ->]%restock_returns_inv [Hb ->]%restock_returns_inv.
  rewrite restock_accepted by lia.
  rewrite quantity_in_stock_assign, assign_quantity_in_stock_twice.
  do 2 f_equal. lia.
Qed.

Lemma restock_restock_witness :
  restock (4 + 6) acme_tv = (assign_quantity_in_stock 15 acme_tv, Ret ()).
Proof.
  apply (restock_restock acme_tv 4 6 (assign_quantity_in_stock 9 acme_tv)).
  - reflexivity.
  - reflexivity.
Defined.

(** X3. A sale within the stock followed by a restock of the same quantity
    gives the product back as it was, whatever the sale returned. *)
Theorem sell_then_restock self quantity :
  0 ≤ quantity ≤ quantity_in_stock self →
  restock quantity (sell quantity self).1 = (self, Ret ()).
Proof.
  intros Hrange. rewrite sell_guards_passed by done. simpl.
  rewrite restock_accepted by lia.
  rewrite quantity_in_stock_assign, assign_quantity_in_stock_twice.
  replace (quantity_in_stock self - quantity + quantity) with (quantity_in_stock self)
    by lia.
  by rewrite assign_quantity_in_stock_same.
Qed.

Lemma sell_then_restock_witness :
  restock 3 (sell 3 acme_tv).1 = (acme_tv, Ret ()).
Proof. apply (sell_then_restock acme_tv 3). vm_compute. split; discriminate. Defined.

(** X4. Two sales in a row within the stock leave the stock that one sale of
    the sum leaves. *)
Theorem sell_sell self a b :
  0 ≤ a → 0 ≤ b → a + b ≤ quantity_in_stock self →
  (sell b (sell a self).1).1 = (sell (a + b) self).1.
Proof.
  intros Ha Hb Hsum. rewrite (sell_guards_passed self a) by lia. simpl.
  rewrite sell_guards_passed by (rewrite quantity_in_stock_assign; lia).
  rewrite (sell_guards_passed self (a + b)) by lia. simpl.
  rewrite quantity_in_stock_assign, assign_quantity_in_stock_twice. f_equal. lia.
Qed.

Lemma sell_sell_witness :
  (sell 3 (sell 2 acme_tv).1).1 = (sell (2 + 3) acme_tv).1.
Proof. apply (sell_sell acme_tv 2 3); vm_compute; discriminate. Defined.

(** X5. A sale of zero units returns [price * 0] and leaves the product as it
    was, for a product whose stock is not negative. *)
Theorem sell_nothing self :
  0 ≤ quantity_in_stock self →
  sell 0 self = (self, Ret (PrimFloat.mul (price self) 0)).
Proof.
  intros Hstock. rewrite sell_guards_passed by lia.
  rewrite Z.sub_0_r, assign_quantity_in_stock_same. reflexivity.
Qed.

Lemma sell_nothing_witness :
  sell 0 acme_tv = (acme_tv, Ret (PrimFloat.mul (price acme_tv) 0)).
Proof. apply (sell_nothing acme_tv). vm_compute. discriminate. Defined.

(** X6. The price setter raises [ValueError] exactly when [new_price < 0]
    holds as a float comparison, and then leaves the product as it was;
    otherwise the price becomes [new_price] and nothing else changes. *)
Theorem set_price_outcome self new_price :
  (PrimFloat.ltb new_price 0 = true →
     set_price new_price self = (self, Raise (ValueError "Price cannot be negative"))) ∧
  (PrimFloat.ltb new_price 0 = false →
     ∃ self', set_price new_price self = (self', Ret ()) ∧
       price self' = new_price ∧
       quantity_in_stock self' = quantity_in_stock self ∧
       product_id self' = product_id self ∧
       name self' = name self ∧ class_name self' = class_name self).
Proof.
  unfold set_price. split; intros ->; [done|].
  eexists. split; [done|]. by destruct self.
Qed.

Lemma set_price_outcome_witness :
  ∃ self', set_price 120 acme_tv = (self', Ret ()) ∧
    price self' = 120%float ∧
    quantity_in_stock self' = quantity_in_stock acme_tv ∧
    product_id self' = product_id acme_tv ∧
    name self' = name acme_tv ∧ class_name self' = class_name acme_tv.
Proof. apply (proj2 (set_price_outcome acme_tv 120)). reflexivity. Defined.

Lemma serve_changes_price_and_stock r self :
  0 ≤ quantity_in_stock self → PrimFloat.ltb (price self) 0 = false →
  ∃ p q, serve r self = assign_price p (assign_quantity_in_stock q self) ∧
         0 ≤ q ∧ PrimFloat.ltb p 0 = false.
Proof.
  intros Hstock Hprice. destruct r as [quantity|amount|new_price]; simpl.
  - unfold sell. destruct (Z.ltb_spec quantity 0); simpl.
    { exists (price self), (quantity_in_stock self). by destruct self as [[] ? ?|[] ?|[] ? ?]. }
    destruct (Z.gtb_spec quantity (quantity_in_stock self)); simpl.
    { exists (price self), (quantity_in_stock self). by destruct self as [[] ? ?|[] ?|[] ? ?]. }
    exists (price self), (quantity_in_stock self - quantity).
    split_and!; [by destruct self as [[] ? ?|[] ?|[] ? ?] | lia | done].
  - unfold restock. destruct (Z.ltb_spec amount 0); simpl.
    { exists (price self), (quantity_in_stock self). by destruct self as [[] ? ?|[] ?|[] ? ?]. }
    exists (price self), (quantity_in_stock self + amount).
    split_and!; [by destruct self as [[] ? ?|[] ?|[] ? ?] | lia | done].
  - unfold set_price. destruct (PrimFloat.ltb new_price 0) eqn:Hnew; simpl.
    { exists (price self), (quantity_in_stock self). by destruct self as [[] ? ?|[] ?|[] ? ?]. }
    exists new_price, (quantity_in_stock self).
    split_and!; [by destruct self as [[] ? ?|[] ?|[] ? ?] | lia | done].
Qed.

(** X7. Whatever calls of [sell], [restock] and the price setter are made on
    a product whose stock and price are not negative, and whether they return
    or raise, the product then differs from the original in price and stock
    only, its stock is not negative and its price is not negative. *)
Theorem calls_keep_product_sound rs self :
  0 ≤ quantity_in_stock self → PrimFloat.ltb (price self) 0 = false →
  ∃ p q, serve_all rs self = assign_price p (assign_quantity_in_stock q self) ∧
         0 ≤ q ∧ PrimFloat.ltb p 0 = false.
Proof.
  revert self. induction rs as [|r rs IH]; intros self Hstock Hprice.
  - exists (price self), (quantity_in_stock self).
    split_and!; try done. by destruct self as [[] ? ?|[] ?|[] ? ?].
  - destruct (serve_changes_price_and_stock r self Hstock Hprice)
      as (p1 & q1 & Hserve & Hq1 & Hp1).
    unfold serve_all. simpl. fold (serve_all rs (serve r self)).
    destruct (IH (serve r self)) as (p & q & Hall & Hq & Hp).
    { rewrite Hserve. by destruct self. }
    { rewrite Hserve. by destruct self. }
    exists p, q. split_and!; try done.
    rewrite Hall, Hserve. by destruct self.
Qed.

(** Four calls, three of which are refused. *)
Lemma calls_keep_product_sound_witness :
  ∃ p q, serve_all [SellRequest 9; RestockRequest (-1); SellRequest 2; PriceRequest (-3)]
                   acme_tv = assign_price p (assign_quantity_in_stock q acme_tv) ∧
         0 ≤ q ∧ PrimFloat.ltb p 0 = false.
Proof.
  apply (calls_keep_product_sound
           [SellRequest 9; RestockRequest (-1); SellRequest 2; PriceRequest (-3)] acme_tv).
  - vm_compute. discriminate.
  - reflexivity.
Defined.

(** ** The store: add, remove, get, sell and restock *)

Lemma dict_get_None k (d : Inventory) : dict_get k d = None ↔ k ∉ d.*1.
Proof.
  induction d as [|[k' v] d IH]; simpl.
  - split; [intros _; apply not_elem_of_nil | done].
  - rewrite not_elem_of_cons. destruct (decide (k = k')) as [->|Hne]; [|by rewrite IH; tauto].
    split; [done | by intros [? _]].
Qed.

Lemma dict_get_Some_elem k v (d : Inventory) : dict_get k d = Some v → (k, v) ∈ d.
Proof.
  induction d as [|[k' v'] d IH]; simpl; [done|].
  destruct (decide (k = k')) as [->|Hne].
  - intros [= ->]. left.
  - intros Hget. right. by apply IH.
Qed.

Lemma dict_get_set_eq k v (d : Inventory) : dict_get k (dict_set k v d) = Some v.
Proof.
  induction d as [|[k' v'] d IH]; simpl.
  - by rewrite decide_True.
  - destruct (decide (k = k')) as [->|Hne]; simpl.
    + by rewrite decide_True.
    + by rewrite decide_False.
Qed.

Lemma dict_get_set_ne k k' v (d : Inventory) :
  k ≠ k' → dict_get k' (dict_set k v d) = dict_get k' d.
Proof.
  intros Hne. induction d as [|[k'' v''] d IH]; simpl.
  - by rewrite decide_False.
  - destruct (decide (k = k'')) as [->|Hne']; simpl.
    + by rewrite !decide_False.
    + destruct (decide (k' = k'')); [done | apply IH].
Qed.

Lemma dict_set_present_keys k v (d : Inventory) : k ∈ d.*1 → (dict_set k v d).*1 = d.*1.
Proof.
  induction d as [|[k' v'] d IH]; simpl.
  - by intros ?%elem_of_nil.
  - destruct (decide (k = k')) as [->|Hne]; [done|].
    intros [?|Hin]%elem_of_cons; [done|]. simpl. f_equal. by apply IH.
Qed.

Lemma dict_set_same k v (d : Inventory) : dict_get k d = Some v → dict_set k v d = d.
Proof.
  induction d as [|[k' v'] d IH]; simpl; [done|].
  destruct (decide (k = k')) as [->|Hne]; [by intros [= ->]|].
  intros Hget. by rewrite IH.
Qed.

Lemma dict_set_set k v w (d : Inventory) : dict_set k v (dict_set k w d) = dict_set k v d.
Proof.
  induction d as [|[k' v'] d IH]; simpl.
  - by rewrite decide_True.
  - destruct (decide (k = k')) as [->|Hne]; simpl.
    + by rewrite decide_True.
    + by rewrite decide_False, IH.
Qed.

Lemma dict_get_del_ne k k' (d : Inventory) :
  k ≠ k' → dict_get k' (dict_del k d) = dict_get k' d.
Proof.
  intros Hne. unfold dict_del. induction d as [|[k'' v''] d IH]; [done|].
  destruct (decide (k'' = k)) as [->|Hne'].
  - rewrite filter_cons_False by (simpl; tauto). simpl. by rewrite decide_False.
  - rewrite filter_cons_True by done. simpl. by rewrite IH.
Qed.

Lemma dict_del_keys k (d : Inventory) : (dict_del k d).*1 = filter (λ k', k' ≠ k) d.*1.
Proof.
  unfold dict_del. induction d as [|[k' v] d IH]; [done|].
  rewrite fmap_cons. simpl.
  destruct (decide (k' = k)) as [->|Hne].
  - by rewrite !filter_cons_False by (simpl; tauto).
  - rewrite !filter_cons_True by done. rewrite fmap_cons. simpl. by rewrite IH.
Qed.

Lemma dict_del_not_elem k (d : Inventory) : k ∉ (dict_del k d).*1.
Proof. rewrite dict_del_keys, list_elem_of_filter. tauto. Qed.

Lemma get_product_dict_get product_id (self : Inventory) :
  get_product product_id self =
    (self, match dict_get product_id self with
           | Some product => Ret product
           | None => Raise (ProductNotFoundError product_id)
           end).
Proof. unfold get_product. by destruct (dict_get product_id self). Qed.

(** X8. [add_product] raises [DuplicateProductError] exactly when the id of
    the product is already a key of the store, and then leaves the store as it
    was; otherwise the product goes to the end of the store, [get_product]
    finds it under its id, and every other id is looked up as before. *)
Theorem add_product_outcome product (self : Inventory) :
  (product_id product ∈ self.*1 →
     add_product product self =
       (self, Raise (DuplicateProductError (product_id product)))) ∧
  (product_id product ∉ self.*1 →
     add_product product self = (self ++ [(product_id product, product)], Ret ()) ∧
     (get_product (product_id product) (add_product product self).1).2 = Ret product ∧
     (list_all_products (add_product product self).1).2 =
       Ret (values self ++ [product]) ∧
     ∀ other, other ≠ product_id product →
       (get_product other (add_product product self).1).2 = (get_product other self).2).
Proof.
  split; [apply add_product_duplicate|].
  intros Hfresh. rewrite add_product_fresh by done. simpl.
  rewrite <- (dict_set_absent _ _ _ Hfresh). split_and!.
  - done.
  - by rewrite get_product_dict_get, dict_get_set_eq.
  - unfold list_all_products, values. simpl.
    by rewrite dict_set_absent, fmap_app.
  - intros other Hother. by rewrite !get_product_dict_get, dict_get_set_ne.
Qed.

Lemma add_product_outcome_witness :
  add_product cotton_shirt [("E1", acme_tv)] =
    ([("E1", acme_tv)] ++ [(product_id cotton_shirt, cotton_shirt)], Ret ()) ∧
  (get_product (product_id cotton_shirt)
     (add_product cotton_shirt [("E1", acme_tv)]).1).2 = Ret cotton_shirt ∧
  (list_all_products (add_product cotton_shirt [("E1", acme_tv)]).1).2 =
    Ret (values [("E1", acme_tv)] ++ [cotton_shirt]) ∧
  ∀ other, other ≠ product_id cotton_shirt →
    (get_product other (add_product cotton_shirt [("E1", acme_tv)]).1).2 =
      (get_product other [("E1", acme_tv)]).2.
Proof.
  apply (add_product_outcome cotton_shirt [("E1", acme_tv)]).
  apply (bool_decide_unpack _). by vm_compute.
Defined.

(** X9. [remove_product] raises [ProductNotFoundError] exactly when the id is
    no key of the store, and then leaves the store as it was; otherwise the
    id is no longer a key, [get_product] no longer finds it, the other
    entries stay, in their order, and are looked up as before. *)
Theorem remove_product_outcome product_id (self : Inventory) :
  (product_id ∉ self.*1 →
     remove_product product_id self = (self, Raise (ProductNotFoundError product_id))) ∧
  (product_id ∈ self.*1 →
     remove_product product_id self =
       (filter (λ item, item.1 ≠ product_id) self, Ret ()) ∧
     (product_id ∉ ((remove_product product_id self).1).*1) ∧
     (get_product product_id (remove_product product_id self).1).2 =
       Raise (ProductNotFoundError product_id) ∧
     ∀ other, other ≠ product_id →
       (get_product other (remove_product product_id self).1).2 =
         (get_product other self).2).
Proof.
  unfold remove_product. split.
  - intros Habsent. destruct (dict_contains product_id self) eqn:Hin; [|done].
    by apply dict_contains_elem in Hin.
  - intros Hpresent. apply dict_contains_elem in Hpresent as ->. simpl.
    split_and!.
    + done.
    + apply dict_del_not_elem.
    + rewrite get_product_dict_get. simpl.
      by rewrite (proj2 (dict_get_None _ _) (dict_del_not_elem product_id self)).
    + intros other Hother. by rewrite !get_product_dict_get, dict_get_del_ne.
Qed.

Lemma remove_product_outcome_witness :
  remove_product "G1" sample_store =
    (filter (λ item, item.1 ≠ "G1") sample_store, Ret ()) ∧
  ("G1" ∉ ((remove_product "G1" sample_store).1).*1) ∧
  (get_product "G1" (remove_product "G1" sample_store).1).2 =
    Raise (ProductNotFoundError "G1") ∧
  ∀ other, other ≠ "G1" →
    (get_product other (remove_product "G1" sample_store).1).2 =
      (get_product other sample_store).2.
Proof.
  apply (remove_product_outcome "G1" sample_store).
  apply (bool_decide_unpack _). by vm_compute.
Defined.

(** X10. Adding a product under a fresh id and removing that id gives the
    store back as it was. *)
Theorem add_then_remove product (self : Inventory) :
  product_id product ∉ self.*1 →
  remove_product (product_id product) (add_product product self).1 = (self, Ret ()).
Proof.
  intros Hfresh. rewrite add_product_fresh by done. simpl.
  unfold remove_product.
  assert (dict_contains (product_id product) (self ++ [(product_id product, product)])
          = true) as ->.
  { apply dict_contains_elem. rewrite fmap_app. apply elem_of_app. right. left. }
  simpl. f_equal.
  rewrite <- (app_nil_r self) at 2.
  change (self ++ [(product_id product, product)])
    with (self ++ (product_id product, product) :: []).
  rewrite dict_del_middle; [done | done | apply not_elem_of_nil].
Qed.

Lemma add_then_remove_witness :
  remove_product (product_id cotton_shirt) (add_product cotton_shirt [("E1", acme_tv)]).1 =
    ([("E1", acme_tv)], Ret ()).
Proof.
  apply (add_then_remove cotton_shirt [("E1", acme_tv)]).
  apply (bool_decide_unpack _). by vm_compute.
Defined.

(** X11. [get_product] leaves the store as it was, raises
    [ProductNotFoundError] exactly when the id is no key of the store, and in
    a valid store what it returns is a stored product with that id. *)
Theorem get_product_outcome product_id' (self : Inventory) :
  valid_store self →
  (get_product product_id' self).1 = self ∧
  ((get_product product_id' self).2 = Raise (ProductNotFoundError product_id')
     ↔ product_id' ∉ self.*1) ∧
  (∀ product, (get_product product_id' self).2 = Ret product →
     product_id product = product_id' ∧ product ∈ values self).
Proof.
  intros [_ Hall]. rewrite get_product_dict_get. simpl. split_and!.
  - done.
  - rewrite <- dict_get_None. by destruct (dict_get product_id' self).
  - intros product. destruct (dict_get product_id' self) as [found|] eqn:Hget; [|done].
    intros [= ->]. apply dict_get_Some_elem in Hget.
    rewrite Forall_forall in Hall. destruct (Hall _ Hget) as [Hkey _].
    split; [done|]. unfold values. apply list_elem_of_fmap. by exists (product_id', product).
Qed.

Lemma get_product_outcome_witness :
  (get_product "G2" sample_store).1 = sample_store ∧
  ((get_product "G2" sample_store).2 = Raise (ProductNotFoundError "G2")
     ↔ "G2" ∉ sample_store.*1) ∧
  (∀ product, (get_product "G2" sample_store).2 = Ret product →
     product_id product = "G2" ∧ product ∈ values sample_store).
Proof. apply (get_product_outcome "G2" sample_store). apply sample_store_valid. Defined.

Lemma sell_product_found product_id product quantity (self : Inventory) :
  dict_get product_id self = Some product →
  sell_product product_id quantity self =
    (dict_set product_id (sell quantity product).1 self, (sell quantity product).2).
Proof.
  intros Hget. unfold sell_product. rewrite get_product_dict_get, Hget.
  by destruct (sell quantity product).
Qed.

Lemma restock_product_found product_id product quantity (self : Inventory) :
  dict_get product_id self = Some product →
  restock_product product_id quantity self =
    (dict_set product_id (restock quantity product).1 self, (restock quantity product).2).
Proof.
  intros Hget. unfold restock_product. rewrite get_product_dict_get, Hget.
  by destruct (restock quantity product).
Qed.

(** X12. [sell_product] on an id that is no key of the store raises
    [ProductNotFoundError] and leaves the store as it was. On a stored id it
    returns or raises what [sell] does on the stored product, the product in
    the store is the product [sell] left, the keys of the store and their
    order are unchanged (a sale removes nothing, even at zero stock), and every
    other id is looked up as before. *)
Theorem sell_product_outcome product_id quantity (self : Inventory) :
  (product_id ∉ self.*1 →
     sell_product product_id quantity self =
       (self, Raise (ProductNotFoundError product_id))) ∧
  (∀ product, dict_get product_id self = Some product →
     (sell_product product_id quantity self).2 = (sell quantity product).2 ∧
     dict_get product_id (sell_product product_id quantity self).1 =
       Some (sell quantity product).1 ∧
     ((sell_product product_id quantity self).1).*1 = self.*1 ∧
     ∀ other, other ≠ product_id →
       dict_get other (sell_product product_id quantity self).1 = dict_get other self).
Proof.
  split.
  - intros Habsent%dict_get_None. unfold sell_product.
    by rewrite get_product_dict_get, Habsent.
  - intros product Hget. rewrite (sell_product_found _ _ _ _ Hget). simpl.
    split_and!.
    + done.
    + apply dict_get_set_eq.
    + apply dict_set_present_keys. apply dict_get_Some_elem in Hget.
      apply list_elem_of_fmap. by exists (product_id, product).
    + intros other Hother. by apply dict_get_set_ne.
Qed.

(** Selling all five units of E1: the product stays in the store. *)
Lemma sell_product_outcome_witness :
  (sell_product "E1" 5 sample_store).2 = (sell 5 acme_tv).2 ∧
  dict_get "E1" (sell_product "E1" 5 sample_store).1 = Some (sell 5 acme_tv).1 ∧
  ((sell_product "E1" 5 sample_store).1).*1 = sample_store.*1 ∧
  ∀ other, other ≠ "E1" →
    dict_get other (sell_product "E1" 5 sample_store).1 = dict_get other sample_store.
Proof.
  apply (proj2 (sell_product_outcome "E1" 5 sample_store) acme_tv).
  reflexivity.
Defined.

(** X13. [restock_product] on an id that is no key of the store raises
    [ProductNotFoundError] and leaves the store as it was; on a stored id it
    does to the stored product what [restock] does, and leaves the keys of the
    store and every other product as they were. *)
Theorem restock_product_outcome product_id quantity (self : Inventory) :
  (product_id ∉ self.*1 →
     restock_product product_id quantity self =
       (self, Raise (ProductNotFoundError product_id))) ∧
  (∀ product, dict_get product_id self = Some product →
     (restock_product product_id quantity self).2 = (restock quantity product).2 ∧
     dict_get product_id (restock_product product_id quantity self).1 =
       Some (restock quantity product).1 ∧
     ((restock_product product_id quantity self).1).*1 = self.*1 ∧
     ∀ other, other ≠ product_id →
       dict_get other (restock_product product_id quantity self).1 = dict_get other self).
Proof.
  split.
  - intros Habsent%dict_get_None. unfold restock_product.
    by rewrite get_product_dict_get, Habsent.
  - intros product Hget. rewrite (restock_product_found _ _ _ _ Hget). simpl.
    split_and!.
    + done.
    + apply dict_get_set_eq.
    + apply dict_set_present_keys. apply dict_get_Some_elem in Hget.
      apply list_elem_of_fmap. by exists (product_id, product).
    + intros other Hother. by apply dict_get_set_ne.
Qed.

Lemma restock_product_outcome_witness :
  restock_product "Z9" 5 sample_store = (sample_store, Raise (ProductNotFoundError "Z9")).
Proof.
  apply (proj1 (restock_product_outcome "Z9" 5 sample_store)).
  apply (bool_decide_unpack _). by vm_compute.
Defined.

(** X14. Restocking a stored product whose stock is not negative and then
    selling the same quantity of it gives the store back as it was. *)
Theorem restock_then_sell_product product_id product quantity (self : Inventory) :
  dict_get product_id self = Some product →
  0 ≤ quantity_in_stock product → 0 ≤ quantity →
  (sell_product product_id quantity (restock_product product_id quantity self).1).1 = self.
Proof.
  intros Hget Hstock Hquantity.
  rewrite (restock_product_found _ _ _ _ Hget), restock_accepted by done. simpl.
  rewrite (sell_product_found _ (assign_quantity_in_stock
             (quantity_in_stock product + quantity) product)) by apply dict_get_set_eq.
  rewrite sell_guards_passed by (rewrite quantity_in_stock_assign; lia). simpl.
  rewrite quantity_in_stock_assign, assign_quantity_in_stock_twice, dict_set_set.
  replace (quantity_in_stock product + quantity - quantity)
    with (quantity_in_stock product) by lia.
  rewrite assign_quantity_in_stock_same. by apply dict_set_same.
Qed.

Lemma restock_then_sell_product_witness :
  (sell_product "C1" 7 (restock_product "C1" 7 sample_store).1).1 = sample_store.
Proof.
  apply (restock_then_sell_product "C1" cotton_shirt 7 sample_store).
  - reflexivity.
  - vm_compute. discriminate.
  - vm_compute. discriminate.
Defined.

(** ** The store stays a valid store *)

Lemma valid_store_dict_set k product product' (self : Inventory) :
  valid_store self → dict_get k self = Some product →
  product_id product' = product_id product → valid_product product' →
  valid_store (dict_set k product' self).
Proof.
  intros [Hnodup Hall] Hget Hid Hvalid. split.
  - rewrite dict_set_present_keys; [done|].
    apply dict_get_Some_elem in Hget. apply list_elem_of_fmap. by exists (k, product).
  - assert (k = product_id product) as Hk.
    { apply dict_get_Some_elem in Hget. rewrite Forall_forall in Hall.
      by destruct (Hall _ Hget). }
    clear Hnodup Hget. induction self as [|[k' v'] self IH]; simpl.
    + apply Forall_singleton. simpl. by rewrite Hid.
    + apply Forall_cons in Hall as [Hhead Hall].
      destruct (decide (k = k')) as [->|Hne].
      * apply Forall_cons. split; [|done]. simpl. by rewrite Hid, <- Hk.
      * apply Forall_cons. split; [done | by apply IH].
Qed.

Lemma valid_store_filter (P : string * Product → Prop) `{!∀ x, Decision (P x)}
    (self : Inventory) :
  valid_store self → valid_store (filter P self).
Proof.
  intros [Hnodup Hall]. split.
  - induction self as [|[k v] self IH]; [done|].
    rewrite fmap_cons in Hnodup. apply NoDup_cons in Hnodup as [Hk Hnodup].
    apply Forall_cons in Hall as [_ Hall].
    destruct (decide (P (k, v))).
    + rewrite filter_cons_True by done. rewrite fmap_cons. apply NoDup_cons.
      split; [|by apply IH]. intros Hin. apply Hk.
      apply list_elem_of_fmap in Hin as (item & -> & Hitem%list_elem_of_filter).
      apply list_elem_of_fmap. exists item. tauto.
    + rewrite filter_cons_False by done. by apply IH.
  - rewrite Forall_forall in Hall. apply Forall_forall.
    intros item Hitem%list_elem_of_filter. apply Hall. tauto.
Qed.

Lemma serve_sell_valid quantity product :
  product_id (sell quantity product).1 = product_id product ∧
  (valid_product product → valid_product (sell quantity product).1).
Proof.
  unfold sell. destruct (quantity <? 0); [done|].
  destruct (quantity >? quantity_in_stock product); [done|]. simpl.
  by destruct product.
Qed.

Lemma serve_restock_valid amount product :
  product_id (restock amount product).1 = product_id product ∧
  (valid_product product → valid_product (restock amount product).1).
Proof.
  unfold restock. destruct (amount <? 0); [done|]. simpl. by destruct product.
Qed.

(** X15. Every operation that changes the store keeps it a valid store (no
    key twice, each product filed under its own id, Grocery dates valid),
    whether the operation returns or raises. *)
Theorem store_operations_keep_valid_store (self : Inventory) :
  valid_store self →
  (∀ product, valid_product product → valid_store (add_product product self).1) ∧
  (∀ product_id, valid_store (remove_product product_id self).1) ∧
  (∀ product_id quantity, valid_store (sell_product product_id quantity self).1) ∧
  (∀ product_id quantity, valid_store (restock_product product_id quantity self).1) ∧
  (∀ today, valid_store (remove_expired_products today self).1).
Proof.
  intros Hvalid. split_and!.
  - intros product Hproduct.
    destruct (add_product product self) as [self' result] eqn:Hadd.
    destruct (decide (product_id product ∈ self.*1)) as [Hin|Hfresh].
    + rewrite add_product_duplicate in Hadd by done. by injection Hadd as <- _.
    + rewrite add_product_fresh in Hadd by done. injection Hadd as <- <-.
      eapply add_product_valid_store; [done..|]. by apply add_product_fresh.
  - intros product_id. unfold remove_product.
    destruct (dict_contains product_id self); simpl; [|done].
    by apply valid_store_filter.
  - intros product_id quantity.
    destruct (dict_get product_id self) as [product|] eqn:Hget.
    + rewrite (sell_product_found _ _ _ _ Hget). simpl.
      destruct (serve_sell_valid quantity product) as [Hid Hkeep].
      apply (valid_store_dict_set _ product); [done..|].
      apply Hkeep. destruct Hvalid as [_ Hall]. rewrite Forall_forall in Hall.
      by destruct (Hall _ (dict_get_Some_elem _ _ _ Hget)).
    + unfold sell_product. by rewrite get_product_dict_get, Hget.
  - intros product_id quantity.
    destruct (dict_get product_id self) as [product|] eqn:Hget.
    + rewrite (restock_product_found _ _ _ _ Hget). simpl.
      destruct (serve_restock_valid quantity product) as [Hid Hkeep].
      apply (valid_store_dict_set _ product); [done..|].
      apply Hkeep. destruct Hvalid as [_ Hall]. rewrite Forall_forall in Hall.
      by destruct (Hall _ (dict_get_Some_elem _ _ _ Hget)).
    + unfold restock_product. by rewrite get_product_dict_get, Hget.
  - intros today. unfold remove_expired_products.
    pose proof (sweep_loop today self [] [] (proj1 Hvalid)) as Hloop.
    simpl in Hloop. rewrite Hloop. simpl. by apply valid_store_filter.
Qed.

Lemma store_operations_keep_valid_store_witness :
  (∀ product, valid_product product → valid_store (add_product product sample_store).1) ∧
  (∀ product_id, valid_store (remove_product product_id sample_store).1) ∧
  (∀ product_id quantity, valid_store (sell_product product_id quantity sample_store).1) ∧
  (∀ product_id quantity,
     valid_store (restock_product product_id quantity sample_store).1) ∧
  (∀ today, valid_store (remove_expired_products today sample_store).1).
Proof. apply (store_operations_keep_valid_store sample_store), sample_store_valid. Defined.

(** ** Expiry *)

Lemma strictly_after_irrefl a : ¬ strictly_after a a.
Proof. unfold strictly_after. lia. Qed.

Lemma strictly_after_trans a b c :
  strictly_after a b → strictly_after b c → strictly_after a c.
Proof. unfold strictly_after. lia. Qed.

(** X16. A Grocery product is not expired on its expiry date, and once it is
    expired it is expired on every later day. *)
Theorem is_expired_from_the_day_after today later expiry_date :
  is_expired expiry_date expiry_date = false ∧
  (is_expired today expiry_date = true → date_gt later today = true →
     is_expired later expiry_date = true).
Proof.
  unfold is_expired. split.
  - destruct (date_gt expiry_date expiry_date) eqn:Hgt; [|done].
    apply date_gt_strictly_after in Hgt. by apply strictly_after_irrefl in Hgt.
  - rewrite !date_gt_strictly_after. intros H1 H2. by eapply strictly_after_trans.
Qed.

Lemma is_expired_from_the_day_after_witness :
  is_expired (Date 2025 1 1) (Date 2024 2 29) = true.
Proof.
  apply (proj2 (is_expired_from_the_day_after (Date 2024 3 1) (Date 2025 1 1)
                  (Date 2024 2 29))).
  - reflexivity.
  - reflexivity.
Defined.

Lemma filter_nothing_left {A} (P : A → Prop) `{!∀ x, Decision (P x)} (l : list A) :
  filter P (filter (λ x, ¬ P x) l) = [].
Proof.
  induction l as [|x l IH]; [done|].
  destruct (decide (P x)).
  - by rewrite (filter_cons_False (λ x, ¬ P x)) by tauto.
  - rewrite (filter_cons_True (λ x, ¬ P x)) by done. by rewrite filter_cons_False.
Qed.

Lemma filter_all_kept {A} (P : A → Prop) `{!∀ x, Decision (P x)} (l : list A) :
  filter P (filter P l) = filter P l.
Proof.
  induction l as [|x l IH]; [done|].
  destruct (decide (P x)).
  - rewrite !filter_cons_True by done. by rewrite IH.
  - by rewrite filter_cons_False.
Qed.

(** X17. After a sweep no stored product is an expired Grocery product, and a
    second sweep on the same day removes nothing and returns the empty list. *)
Theorem remove_expired_products_twice today (self : Inventory) :
  NoDup self.*1 →
  Forall (λ product, ¬ expired_grocery today product)
         (values (remove_expired_products today self).1) ∧
  remove_expired_products today (remove_expired_products today self).1 =
    ((remove_expired_products today self).1, Ret []).
Proof.
  intros Hnodup.
  assert (∀ store : Inventory, NoDup store.*1 →
            remove_expired_products today store =
              (filter (λ item, ¬ expired_grocery today item.2) store,
               Ret (filter (λ item, expired_grocery today item.2) store).*1)) as Hsweep.
  { intros store Hstore. unfold remove_expired_products.
    pose proof (sweep_loop today store [] [] Hstore) as Hloop.
    simpl in Hloop. by rewrite Hloop. }
  rewrite (Hsweep self Hnodup). simpl. split.
  - unfold values. apply Forall_fmap, Forall_forall.
    by intros item [Hkept _]%list_elem_of_filter.
  - rewrite Hsweep.
    + by rewrite filter_all_kept,
        (filter_nothing_left (λ item, expired_grocery today item.2)).
    + induction self as [|[k v] self IH]; [done|].
      rewrite fmap_cons in Hnodup. apply NoDup_cons in Hnodup as [Hk Hnodup].
      destruct (decide (¬ expired_grocery today v)).
      * rewrite filter_cons_True by done. rewrite fmap_cons. apply NoDup_cons.
        split; [|by apply IH]. intros Hin. apply Hk.
        apply list_elem_of_fmap in Hin as (item & -> & Hitem%list_elem_of_filter).
        apply list_elem_of_fmap. exists item. tauto.
      * rewrite filter_cons_False by done. by apply IH.
Qed.

Lemma remove_expired_products_twice_witness :
  Forall (λ product, ¬ expired_grocery (Date 2024 6 15) product)
         (values (remove_expired_products (Date 2024 6 15) sample_store).1) ∧
  remove_expired_products (Date 2024 6 15)
      (remove_expired_products (Date 2024 6 15) sample_store).1 =
    ((remove_expired_products (Date 2024 6 15) sample_store).1, Ret []).
Proof.
  apply (remove_expired_products_twice (Date 2024 6 15) sample_store).
  apply (bool_decide_unpack _). by vm_compute.
Defined.

(** ** Search *)

(** X18. The three searches by type split the store: every stored product is
    returned for the tag of its own class and for no other tag, and the three
    results together have as many products as the store. *)
Theorem search_by_type_splits_store (self : Inventory) :
  (∀ product tag found,
     (search_by_type tag self).2 = Ret found →
     (product ∈ found ↔ product ∈ values self ∧ class_name product = tag)) ∧
  ∃ electronics groceries clothes,
    (search_by_type "Electronics" self).2 = Ret electronics ∧
    (search_by_type "Grocery" self).2 = Ret groceries ∧
    (search_by_type "Clothing" self).2 = Ret clothes ∧
    (length electronics + length groceries + length clothes = length self)%nat.
Proof.
  split.
  - intros product tag found. unfold search_by_type.
    destruct (PRODUCT_TYPES tag) as [cls|] eqn:Hcls; [|done]. simpl.
    intros [= <-]. rewrite list_elem_of_filter, (isinstance_class_name _ _ _ Hcls). tauto.
  - do 3 eexists. split_and!; [reflexivity..|]. simpl. unfold values.
    induction self as [|[k product] self IH]; [done|].
    rewrite fmap_cons. simpl.
    destruct product; simpl;
      repeat (rewrite filter_cons_True by done);
      repeat (rewrite filter_cons_False by (simpl; tauto)); simpl; lia.
Qed.

Lemma search_by_type_splits_store_witness :
  old_milk ∈ [old_milk; long_life_rice] ↔
    old_milk ∈ values sample_store ∧ class_name old_milk = "Grocery".
Proof.
  apply (proj1 (search_by_type_splits_store sample_store) old_milk "Grocery").
  reflexivity.
Defined.



(** ** The saved record and the keyword call *)

(** X20. The record [to_dict] produces has exactly the parameters of the
    constructor of the product's class as keys, plus the key "type", which
    holds the name of the class. *)
Theorem to_dict_keys product :
  dom (to_dict product) = list_to_set (parameters (class_of product)) ∪ {["type"]} ∧
  to_dict product !! "type" = Some (PStr (class_name product)).
Proof.
  destruct product as [c w b | c d | c s m]; unfold to_dict, Product_to_dict;
    try generalize (isoformat d); intros; split; by vm_compute.
Qed.

Section KeywordCall.
Context {B : Builtins}.

(** X21. A record whose keys are not exactly the parameters of the class
    (a field missing, or a field too many) is refused by the keyword call
    with [TypeError], whatever the values are. *)
Theorem call_class_wrong_fields cls (kwargs : gmap string pyval) :
  dom kwargs ≠ list_to_set (parameters cls) →
  ∃ msg, call_class cls kwargs = Raise (TypeError msg).
Proof.
  intros Hdom. unfold call_class.
  destruct (decide (dom kwargs ⊆ list_to_set (parameters cls))) as [Hsub|_]; [|eauto].
  unfold kwarg.
  destruct (kwargs !! "product_id") as [v1|] eqn:H1; [|simpl; eauto].
  destruct (kwargs !! "name") as [v2|] eqn:H2; [|simpl; eauto].
  destruct (kwargs !! "price") as [v3|] eqn:H3; [|simpl; eauto].
  destruct (kwargs !! "quantity_in_stock") as [v4|] eqn:H4; [|simpl; eauto].
  apply (elem_of_dom_2 kwargs) in H1, H2, H3, H4.
  destruct cls; simpl.
  - destruct (kwargs !! "warranty_years") as [v5|] eqn:H5; [|simpl; eauto].
    destruct (kwargs !! "brand") as [v6|] eqn:H6; [|simpl; eauto].
    apply (elem_of_dom_2 kwargs) in H5, H6.
    destruct Hdom. apply set_eq. intros k. split; [apply Hsub|].
    simpl. rewrite !elem_of_union, !elem_of_singleton, elem_of_empty.
    intros [->|[->|[->|[->|[->|[->|[]]]]]]]; done.
  - destruct (kwargs !! "expiry_date") as [v5|] eqn:H5; [|simpl; eauto].
    apply (elem_of_dom_2 kwargs) in H5.
    destruct Hdom. apply set_eq. intros k. split; [apply Hsub|].
    simpl. rewrite !elem_of_union, !elem_of_singleton, elem_of_empty.
    intros [->|[->|[->|[->|[->|[]]]]]]; done.
  - destruct (kwargs !! "size") as [v5|] eqn:H5; [|simpl; eauto].
    destruct (kwargs !! "material") as [v6|] eqn:H6; [|simpl; eauto].
    apply (elem_of_dom_2 kwargs) in H5, H6.
    destruct Hdom. apply set_eq. intros k. split; [apply Hsub|].
    simpl. rewrite !elem_of_union, !elem_of_singleton, elem_of_empty.
    intros [->|[->|[->|[->|[->|[->|[]]]]]]]; done.
Qed.

(** ** What [load] returns *)

Lemma load_entry_Ret (inventory inventory' : Inventory) entry :
  load_entry inventory entry = Ret inventory' →
  ∃ product, inventory' = inventory ++ [(product_id product, product)] ∧
             product_id product ∉ inventory.*1.
Proof.
  unfold load_entry.
  destruct (pop_type entry) as [[product_type kwargs]| |]; [|done..].
  rewrite bind_Ret.
  destruct (lookup_class product_type) as [cls| |]; [|done..].
  rewrite bind_Ret.
  destruct (call_class cls kwargs) as [product| |]; [|done..].
  rewrite bind_Ret.
  destruct (decide (product_id product ∈ inventory.*1)) as [Hin|Hfresh].
  - by rewrite add_product_duplicate.
  - rewrite add_product_fresh by done. simpl. intros [= <-]. eauto.
Qed.

Lemma load_entries_Ret (items : list pyval) (inventory inventory' : Inventory) :
  load_entries inventory items = Ret inventory' →
  ∃ added : Inventory,
    inventory' = inventory ++ added ∧ length added = length items ∧
    Forall (λ item, item.1 = product_id item.2) added ∧
    (NoDup inventory.*1 → NoDup inventory'.*1).
Proof.
  revert inventory. induction items as [|entry items IH]; intros inventory; simpl.
  - intros [= <-]. exists []. by rewrite app_nil_r.
  - destruct (load_entry inventory entry) as [inventory1| |] eqn:Hentry; [|done..].
    rewrite bind_Ret. intros Hrest.
    apply load_entry_Ret in Hentry as (product & -> & Hfresh).
    destruct (IH _ Hrest) as (added & -> & Hlen & Hkeys & Hnodup).
    exists ((product_id product, product) :: added). split_and!.
    + by rewrite <- app_assoc.
    + simpl. by rewrite Hlen.
    + by apply Forall_cons.
    + intros Hinv. apply Hnodup. rewrite fmap_app. apply NoDup_app.
      split_and!; [done| |apply NoDup_singleton].
      intros k Hk Hk'%list_elem_of_singleton. simpl in Hk'. by subst.
Qed.

(** X22. Whatever the file holds, an inventory that [load] returns is a dict
    that files each product under its own id, no id twice; and when the
    "products" entry of the file is a list, the inventory has one product per
    entry of that list. *)
Theorem load_returns_a_store (fs : filesystem) filename (inventory : Inventory) :
  load_from_file fs filename = Ret inventory →
  NoDup inventory.*1 ∧
  Forall (λ item, item.1 = product_id item.2) inventory ∧
  (∀ d items, fs !! filename = Some (Document (PDict d)) →
              d !! "products" = Some (PList items) →
              length inventory = length items).
Proof.
  unfold load_from_file.
  destruct (load_from_file_try [] fs filename) as [loaded|e|] eqn:Htry;
    [|by destruct e|done].
  intros [= ->]. unfold load_from_file_try in Htry.
  destruct (read_json fs filename) as [data| |] eqn:Hread; [|done..].
  rewrite bind_Ret in Htry.
  destruct (get_products data) as [products| |] eqn:Hproducts; [|done..].
  rewrite bind_Ret in Htry.
  destruct (py_iter products) as [items| |] eqn:Hiter; [|done..].
  rewrite bind_Ret in Htry.
  apply load_entries_Ret in Htry as (added & -> & Hlen & Hkeys & Hnodup).
  split_and!; [apply Hnodup, NoDup_nil_2 | done |].
  intros d items' Hfile Hlist. unfold read_json in Hread. rewrite Hfile in Hread.
  injection Hread as <-. simpl in Hproducts. rewrite Hlist in Hproducts.
  injection Hproducts as <-. simpl in Hiter. injection Hiter as <-. done.
Qed.

End KeywordCall.

(** The record of a TV without its "brand". *)
Lemma call_class_wrong_fields_witness :
  ∃ msg, call_class (B := iso_builtins) ElectronicsClass (delete "brand" (delete "type" (to_dict acme_tv)))
           = Raise (TypeError msg).
Proof.
  apply (call_class_wrong_fields (B := iso_builtins) ElectronicsClass
           (delete "brand" (delete "type" (to_dict acme_tv)))).
  apply (bool_decide_unpack _). by vm_compute.
Defined.

Lemma load_returns_a_store_witness :
  NoDup sample_store.*1 ∧
  Forall (λ item, item.1 = product_id item.2) sample_store ∧
  (∀ d items,
     save_to_file "inventory.json" sample_store ∅ !! "inventory.json"
       = Some (Document (PDict d)) →
     d !! "products" = Some (PList items) →
     length sample_store = length items).
Proof.
  apply (load_returns_a_store (B := iso_builtins)
           (save_to_file "inventory.json" sample_store ∅) "inventory.json" sample_store).
  by vm_compute.
Defined.



(** ** Total value of the store *)

Lemma get_total_value_outcome product :
  (∃ total, get_total_value product = Ret total) ∨
  get_total_value product = Raise (OverflowError "int too large to convert to float").
Proof.
  unfold get_total_value, float_mul_int, float_of_int.
  destruct (PrimFloat.is_infinity _); [by right | left; eauto].
Qed.

(** X24. [total_inventory_value] leaves the store as it was; it raises
    nothing but the [OverflowError] of a stock that does not convert to a
    float, and then some stored product's own total value raises it; when
    every stored product has a total value, it returns. *)
Theorem total_inventory_value_outcome (self : Inventory) :
  (total_inventory_value self).1 = self ∧
  (∀ e, (total_inventory_value self).2 = Raise e →
     e = OverflowError "int too large to convert to float" ∧
     ∃ product, product ∈ values self ∧ get_total_value product = Raise e) ∧
  ((∀ product, product ∈ values self → ∃ total, get_total_value product = Ret total) →
     ∃ total, (total_inventory_value self).2 = Ret total).
Proof.
  unfold total_inventory_value. simpl. split_and!; [done|..].
  - intros e. induction (values self) as [|product products IH]; [done|]. simpl.
    destruct (get_total_value_outcome product) as [[total Htotal]|Hraise].
    + rewrite Htotal. simpl.
      destruct (mapM get_total_value products) as [totals| |] eqn:Hrest; simpl; [done| |done].
      intros [= <-]. destruct (IH eq_refl) as (He & found & Hin & Hfound).
      split; [done|]. exists found. split; [by right | done].
    + rewrite Hraise. simpl. intros [= <-]. split; [done|].
      exists product. split; [left | done].
  - intros Hall. induction (values self) as [|product products IH]; simpl; [eauto|].
    destruct (Hall product) as [total ->]; [left|]. simpl.
    destruct IH as [rest Hrest].
    { intros other Hother. apply Hall. by right. }
    destruct (mapM get_total_value products) as [totals| |]; simpl in *; [eauto|done..].
Qed.

Lemma total_inventory_value_outcome_witness :
  ∃ total, (total_inventory_value sample_store).2 = Ret total.
Proof.
  apply (total_inventory_value_outcome sample_store).
  intros product Hin. unfold values, sample_store in Hin. simpl in Hin.
  repeat (apply elem_of_cons in Hin as [->|Hin]; [eexists; by vm_compute|]).
  by apply elem_of_nil in Hin.
Defined.

(** ** The command-line handlers *)

Lemma load_from_file_Raise {B : Builtins} (fs : filesystem) filename e :
  load_from_file fs filename = Raise e → ∃ message, e = InvalidProductDataError message.
Proof.
  unfold load_from_file.
  destruct (load_from_file_try [] fs filename) as [loaded|e'|]; [done| |done].
  destruct e'; intros [= <-]; eauto.
Qed.

(** X25. The load handler, given a line to read, lets no exception out and
    touches no file; it replaces the inventory of the session by the loaded
    one when [load] returns, and keeps the old inventory when [load] fails. *)
Theorem load_inventory_replaces_on_success {B : Builtins}
    (self : InventoryCLI.state) line rest :
  InventoryCLI.stdin (InventoryCLI.terminal self) = line :: rest →
  InventoryCLI.files (InventoryCLI.load_inventory self).1 = InventoryCLI.files self ∧
  InventoryCLI.stdin (InventoryCLI.terminal (InventoryCLI.load_inventory self).1) = rest ∧
  match load_from_file (InventoryCLI.files self) (InventoryCLI.filename_or_default line) with
  | Ret loaded =>
      InventoryCLI.inventory (InventoryCLI.load_inventory self).1 = loaded ∧
      (InventoryCLI.load_inventory self).2 = InventoryCLI.Returned ()
  | Raise _ =>
      InventoryCLI.inventory (InventoryCLI.load_inventory self).1 =
        InventoryCLI.inventory self ∧
      (InventoryCLI.load_inventory self).2 = InventoryCLI.Returned ()
  | Untyped =>
      InventoryCLI.inventory (InventoryCLI.load_inventory self).1 =
        InventoryCLI.inventory self ∧
      (InventoryCLI.load_inventory self).2 = InventoryCLI.UntypedData
  end.
Proof.
  intros Hline.
  unfold InventoryCLI.load_inventory, InventoryCLI.catch, InventoryCLI.input,
    InventoryCLI.of_outcome, InventoryCLI.print, mbind, InventoryCLI.io_bind.
  rewrite Hline. simpl.
  destruct (load_from_file (InventoryCLI.files self)
              (InventoryCLI.filename_or_default line)) as [loaded|e|] eqn:Hload.
  - done.
  - destruct (load_from_file_Raise _ _ _ Hload) as [message ->]. done.
  - done.
Qed.

(** A blank line names the default file; the file with the "Furniture" entry
    does not load, and the session keeps its (empty) inventory. *)
Lemma load_inventory_replaces_on_success_witness :
  InventoryCLI.inventory
    (InventoryCLI.load_inventory (B := iso_builtins)
       (InventoryCLI.init {| InventoryCLI.stdin := ["  "]; InventoryCLI.stdout := [] |}
                          furniture_files)).1 = [] ∧
  (InventoryCLI.load_inventory (B := iso_builtins)
     (InventoryCLI.init {| InventoryCLI.stdin := ["  "]; InventoryCLI.stdout := [] |}
                        furniture_files)).2 = InventoryCLI.Returned ().
Proof.
  apply (proj2 (proj2 (load_inventory_replaces_on_success (B := iso_builtins)
     (InventoryCLI.init {| InventoryCLI.stdin := ["  "]; InventoryCLI.stdout := [] |}
                        furniture_files) "  " [] eq_refl))).
Defined.

(** X26. The remove handler, given a line to read, lets no exception out:
    it returns, the inventory of the session is what [remove_product] leaves
    for the id typed (without the blanks around it), and no file is touched. *)
Theorem remove_product_handler_returns (self : InventoryCLI.state) line rest :
  InventoryCLI.stdin (InventoryCLI.terminal self) = line :: rest →
  (InventoryCLI.remove_product self).2 = InventoryCLI.Returned () ∧
  InventoryCLI.inventory (InventoryCLI.remove_product self).1 =
    (remove_product (InventoryCLI.strip line) (InventoryCLI.inventory self)).1 ∧
  InventoryCLI.files (InventoryCLI.remove_product self).1 = InventoryCLI.files self ∧
  InventoryCLI.stdin (InventoryCLI.terminal (InventoryCLI.remove_product self).1) = rest.
Proof.
  intros Hline.
  unfold InventoryCLI.remove_product, InventoryCLI.input_stripped, InventoryCLI.catch,
    InventoryCLI.input, InventoryCLI.on_inventory, InventoryCLI.of_outcome,
    InventoryCLI.print, mbind, InventoryCLI.io_bind, mret, InventoryCLI.io_ret.
  rewrite Hline. simpl. unfold remove_product.
  by destruct (negb (dict_contains _ _)).
Qed.

Lemma remove_product_handler_returns_witness :
  (InventoryCLI.remove_product (sample_session [" G1 "])).2 = InventoryCLI.Returned () ∧
  InventoryCLI.inventory (InventoryCLI.remove_product (sample_session [" G1 "])).1 =
    [("E1", acme_tv); ("G2", long_life_rice); ("C1", cotton_shirt)].
Proof.
  pose proof (remove_product_handler_returns (sample_session [" G1 "]) " G1 " [] eq_refl)
    as (Hreturns & Hinventory & _).
  split; [exact Hreturns | exact Hinventory].
Defined.

(** X27. The restock handler, given the two lines it reads and an [int] that
    raises nothing but [ValueError] on a string, lets no exception out; it
    adds no product to the store and removes none, and touches no file. *)
Theorem restock_product_handler_returns {B : Builtins}
    (self : InventoryCLI.state) line1 line2 rest :
  (∀ s, (∃ n, int_of_str s = Ret n) ∨ (∃ msg, int_of_str s = Raise (ValueError msg))) →
  InventoryCLI.stdin (InventoryCLI.terminal self) = line1 :: line2 :: rest →
  (InventoryCLI.restock_product self).2 = InventoryCLI.Returned () ∧
  (InventoryCLI.inventory (InventoryCLI.restock_product self).1).*1 =
    (InventoryCLI.inventory self).*1 ∧
  InventoryCLI.files (InventoryCLI.restock_product self).1 = InventoryCLI.files self.
Proof.
  intros Hint Hlines.
  unfold InventoryCLI.restock_product, InventoryCLI.input_stripped,
    InventoryCLI.input_int, InventoryCLI.catch,
    InventoryCLI.input, InventoryCLI.on_inventory, InventoryCLI.of_outcome,
    InventoryCLI.print, mbind, InventoryCLI.io_bind, mret, InventoryCLI.io_ret.
  rewrite Hlines. simpl.
  destruct (Hint (InventoryCLI.strip line2)) as [[n ->]|[msg ->]]; [|done].
  simpl.
  destruct (dict_get (InventoryCLI.strip line1) (InventoryCLI.inventory self))
    as [product|] eqn:Hget.
  - rewrite (restock_product_found _ _ _ _ Hget).
    assert ((dict_set (InventoryCLI.strip line1) (restock n product).1
               (InventoryCLI.inventory self)).*1 = (InventoryCLI.inventory self).*1)
      as Hkeys.
    { apply dict_set_present_keys. apply dict_get_Some_elem in Hget.
      apply list_elem_of_fmap. by exists (InventoryCLI.strip line1, product). }
    revert Hkeys. unfold restock. by destruct (n <? 0).
  - unfold restock_product. by rewrite get_product_dict_get, Hget.
Qed.

Lemma digits_builtins_int s :
  (∃ n, int_of_str (Builtins := digits_builtins) s = Ret n) ∨
  (∃ msg, int_of_str (Builtins := digits_builtins) s = Raise (ValueError msg)).
Proof.
  simpl. destruct (list_ascii_of_string s); [right; eauto|].
  destruct (number _); [left | right]; eauto.
Qed.

Lemma restock_product_handler_returns_witness :
  (InventoryCLI.restock_product (B := digits_builtins) (sample_session ["E1"; "ten"])).2 =
    InventoryCLI.Returned ().
Proof.
  apply (restock_product_handler_returns (B := digits_builtins)
           (sample_session ["E1"; "ten"]) "E1" "ten" []).
  - apply digits_builtins_int.
  - reflexivity.
Defined.

Section SaveThenLoad.
Context {B : Builtins}.
Hypothesis parse_isoformat :
  ∀ d, valid_date d = true → dateutil_parse (isoformat d) = Ret d.


End SaveThenLoad.


(** Frame lemmas: what works on the terminal only leaves store and files. *)
Lemma terminal_only_ret {A} (a : A) : terminal_only (mret a).
Proof. by intros self self' r [= <- <-]. Qed.

Lemma terminal_only_bind {A C} (m : InventoryCLI.io A) (k : A → InventoryCLI.io C) :
  terminal_only m → (∀ a, terminal_only (k a)) → terminal_only (m ≫= k).
Proof.
  intros Hm Hk self self' r. unfold mbind, InventoryCLI.io_bind.
  destruct (m self) as [self1 [a|e| |]] eqn:Hrun; destruct (Hm _ _ _ Hrun) as [Hi Hf].
  - intros Hcont. destruct (Hk a _ _ _ Hcont) as [Hi' Hf']. split; congruence.
  - by intros [= <- <-].
  - by intros [= <- <-].
  - by intros [= <- <-].
Qed.

Lemma terminal_only_catch {A} classes (m : InventoryCLI.io A) handler :
  terminal_only m → (∀ e, terminal_only (handler e)) →
  terminal_only (InventoryCLI.catch classes m handler).
Proof.
  intros Hm Hh self self' r. unfold InventoryCLI.catch.
  destruct (m self) as [self1 [a|e| |]] eqn:Hrun; destruct (Hm _ _ _ Hrun) as [Hi Hf].
  - by intros [= <- <-].
  - destruct (classes e); [|by intros [= <- <-]].
    intros Hcont. destruct (Hh e _ _ _ Hcont) as [Hi' Hf']. split; congruence.
  - by intros [= <- <-].
  - by intros [= <- <-].
Qed.

Lemma terminal_only_print s : terminal_only (InventoryCLI.print s).
Proof. by intros self self' r [= <- <-]. Qed.

Lemma terminal_only_input prompt : terminal_only (InventoryCLI.input prompt).
Proof.
  intros self self' r. unfold InventoryCLI.input.
  by destruct (InventoryCLI.stdin _); intros [= <- <-].
Qed.

Lemma terminal_only_of_outcome {A} (r : outcome A) :
  terminal_only (InventoryCLI.of_outcome r).
Proof. by intros self self' r' [= <- <-]. Qed.

Create HintDb terminal discriminated.
#[local] Hint Resolve terminal_only_ret terminal_only_print terminal_only_input
  terminal_only_of_outcome : terminal.
#[local] Hint Extern 2 (terminal_only (_ ≫= _)) =>
  apply terminal_only_bind; [|intros ?] : terminal.
#[local] Hint Extern 2 (terminal_only (InventoryCLI.catch _ _ _)) =>
  apply terminal_only_catch; [|intros ?] : terminal.
#[local] Hint Extern 3 (terminal_only (if ?b then _ else _)) => destruct b : terminal.
#[local] Hint Extern 3 (terminal_only (match ?o with Some _ => _ | None => _ end)) =>
  destruct o : terminal.

Lemma terminal_only_get_product_type_rounds rounds :
  terminal_only (InventoryCLI.get_product_type_rounds rounds).
Proof.
  induction rounds as [|rounds IH]; simpl.
  - by intros self self' r [= <- <-].
  - unfold InventoryCLI.get_product_type_round. auto 20 with terminal.
Qed.

Lemma terminal_only_get_product_type : terminal_only InventoryCLI.get_product_type.
Proof. intros self self' r. apply terminal_only_get_product_type_rounds. Qed.

Lemma terminal_only_get_product_data {B : Builtins} product_type :
  terminal_only (InventoryCLI.get_product_data product_type).
Proof.
  unfold InventoryCLI.get_product_data, InventoryCLI.input_stripped,
    InventoryCLI.input_float, InventoryCLI.input_int.
  auto 30 with terminal.
Qed.

Lemma get_product_type_rounds_tag rounds self self' tag :
  InventoryCLI.get_product_type_rounds rounds self = (self', InventoryCLI.Returned tag) →
  tag = EmptyString ∨ tag ∈ known_tags.
Proof.
  revert self. induction rounds as [|rounds IH]; intros self; simpl; [done|].
  unfold mbind at 1. unfold InventoryCLI.io_bind.
  destruct (InventoryCLI.get_product_type_round self) as [self1 [[chosen|]|e| |]] eqn:Hround;
    [|by apply IH|done..].
  intros [= <- <-]. revert Hround.
  unfold InventoryCLI.get_product_type_round, InventoryCLI.print, InventoryCLI.input,
    mbind, InventoryCLI.io_bind, mret, InventoryCLI.io_ret. simpl.
  destruct (InventoryCLI.stdin (InventoryCLI.terminal self)) as [|line rest]; [done|].
  unfold known_tags. rewrite !elem_of_cons.
  repeat case_decide; intros [= _ <-]; tauto.
Qed.

(** X29. When the type menu returns, what it returns is the empty string (back
    to the main menu) or one of the three known tags, and neither the
    inventory nor a file has changed; so a search by the type it returns
    never fails. *)
Theorem get_product_type_known (self self' : InventoryCLI.state) tag :
  InventoryCLI.get_product_type self = (self', InventoryCLI.Returned tag) →
  (tag = EmptyString ∨ tag ∈ known_tags) ∧
  InventoryCLI.inventory self' = InventoryCLI.inventory self ∧
  InventoryCLI.files self' = InventoryCLI.files self ∧
  (tag ≠ EmptyString →
     ∃ found, (search_by_type tag (InventoryCLI.inventory self')).2 = Ret found).
Proof.
  intros Hrun.
  destruct (terminal_only_get_product_type _ _ _ Hrun) as [Hinventory Hfiles].
  apply get_product_type_rounds_tag in Hrun as Htag.
  split_and!; [done..|]. intros Hnonempty. destruct Htag as [->|Hknown]; [done|].
  unfold search_by_type.
  destruct (PRODUCT_TYPES tag) as [cls|] eqn:Hcls; [eauto|].
  by apply PRODUCT_TYPES_None in Hcls.
Qed.

(** Two wrong choices, then "2". *)
Lemma get_product_type_known_witness :
  ("Grocery" = EmptyString ∨ "Grocery" ∈ known_tags) ∧
  InventoryCLI.inventory
    (InventoryCLI.get_product_type (sample_session ["9"; "x"; " 2 "; "rest"])).1 =
    InventoryCLI.inventory (sample_session ["9"; "x"; " 2 "; "rest"]) ∧
  InventoryCLI.files
    (InventoryCLI.get_product_type (sample_session ["9"; "x"; " 2 "; "rest"])).1 =
    InventoryCLI.files (sample_session ["9"; "x"; " 2 "; "rest"]) ∧
  ("Grocery" ≠ EmptyString →
     ∃ found,
       (search_by_type "Grocery"
          (InventoryCLI.inventory
             (InventoryCLI.get_product_type
                (sample_session ["9"; "x"; " 2 "; "rest"])).1)).2 = Ret found).
Proof.
  apply (get_product_type_known (sample_session ["9"; "x"; " 2 "; "rest"])
           (InventoryCLI.get_product_type (sample_session ["9"; "x"; " 2 "; "rest"])).1
           "Grocery").
  by vm_compute.
Defined.

(** X30. The add handler, once a type is chosen and the details typed are
    read, calls the constructor of that type on them: when it returns a
    product the handler returns, and the inventory is what [add_product]
    leaves (the product at the end, or the store as it was for an id already
    there, [DuplicateProductError] being caught); when the constructor raises
    an exception that is no [InventoryError] (an expiry date that does not
    parse) the exception leaves the handler, the inventory as it was. No file
    is touched. *)
Theorem add_product_handler_outcome {B : Builtins}
    (self s1 s2 : InventoryCLI.state) tag cls d :
  InventoryCLI.get_product_type self = (s1, InventoryCLI.Returned tag) →
  PRODUCT_TYPES tag = Some cls →
  InventoryCLI.get_product_data tag s1 = (s2, InventoryCLI.Returned (Some d)) →
  InventoryCLI.files (InventoryCLI.add_product self).1 = InventoryCLI.files self ∧
  match call_class cls d with
  | Ret product =>
      (InventoryCLI.add_product self).2 = InventoryCLI.Returned () ∧
      InventoryCLI.inventory (InventoryCLI.add_product self).1 =
        (add_product product (InventoryCLI.inventory self)).1
  | Raise e =>
      (InventoryCLI.add_product self).2 =
        (if InventoryCLI.is_InventoryError e
         then InventoryCLI.Returned () else InventoryCLI.Uncaught e) ∧
      InventoryCLI.inventory (InventoryCLI.add_product self).1 =
        InventoryCLI.inventory self
  | Untyped =>
      (InventoryCLI.add_product self).2 = InventoryCLI.UntypedData ∧
      InventoryCLI.inventory (InventoryCLI.add_product self).1 =
        InventoryCLI.inventory self
  end.
Proof.
  intros Htype Hcls Hdata.
  destruct (terminal_only_get_product_type _ _ _ Htype) as [Hi1 Hf1].
  destruct (terminal_only_get_product_data _ _ _ _ Hdata) as [Hi2 Hf2].
  assert (tag ≠ EmptyString) as Hnonempty by (by intros ->).
  assert ((if decide (tag = "Electronics") then call_class ElectronicsClass d
           else if decide (tag = "Grocery") then call_class GroceryClass d
           else call_class ClothingClass d) = call_class cls d) as Hcall.
  { revert Hcls. unfold PRODUCT_TYPES. by repeat case_decide; intros [= <-]. }
  assert (InventoryCLI.add_product self =
          InventoryCLI.catch InventoryCLI.is_InventoryError
            (product ← InventoryCLI.of_outcome (call_class cls d);
             InventoryCLI.on_inventory (add_product product);;
             InventoryCLI.print (InventoryCLI.nl +:+ "Product added successfully!"))
            (λ e, InventoryCLI.print (InventoryCLI.nl +:+ "Error: " +:+ exn_str e))
            s2) as ->.
  { unfold InventoryCLI.add_product.
    unfold mbind at 1. unfold InventoryCLI.io_bind at 1. rewrite Htype.
    rewrite decide_False by done.
    unfold mbind at 1. unfold InventoryCLI.io_bind at 1. rewrite Hdata.
    by rewrite Hcall. }
  unfold InventoryCLI.catch, mbind, InventoryCLI.io_bind, InventoryCLI.of_outcome,
    InventoryCLI.on_inventory, InventoryCLI.print.
  destruct (call_class cls d) as [product|e|]; simpl.
  - rewrite <- Hi1, <- Hi2. unfold add_product.
    destruct (dict_contains (product_id product) (InventoryCLI.inventory s2)); simpl;
      (split; [congruence | done]).
  - destruct e; simpl; (split; [congruence | split; [done | congruence]]).
  - split; [congruence | split; [done | congruence]].
Qed.

(** An Electronics product typed in digit by digit lands at the end of the
    store. *)
Lemma add_product_handler_outcome_witness :
  (InventoryCLI.add_product (B := digits_builtins)
     (sample_session ["1"; "E7"; "Radio"; "25"; "3"; "2"; "Sony"])).2 =
    InventoryCLI.Returned () ∧
  InventoryCLI.inventory
    (InventoryCLI.add_product (B := digits_builtins)
       (sample_session ["1"; "E7"; "Radio"; "25"; "3"; "2"; "Sony"])).1 =
    sample_store ++ [("E7", sony_radio)].
Proof.
  pose proof (add_product_handler_outcome (B := digits_builtins)
    (sample_session ["1"; "E7"; "Radio"; "25"; "3"; "2"; "Sony"])
    (InventoryCLI.get_product_type
       (sample_session ["1"; "E7"; "Radio"; "25"; "3"; "2"; "Sony"])).1
    (InventoryCLI.get_product_data (B := digits_builtins) "Electronics"
       (InventoryCLI.get_product_type
          (sample_session ["1"; "E7"; "Radio"; "25"; "3"; "2"; "Sony"])).1).1
    "Electronics" ElectronicsClass
    (list_to_map [("product_id", PStr "E7"); ("name", PStr "Radio");
                  ("price", PFloat 25); ("quantity_in_stock", PInt 3);
                  ("warranty_years", PInt 2); ("brand", PStr "Sony")])
    ltac:(by vm_compute) eq_refl ltac:(by vm_compute)) as [_ Houtcome].
  exact Houtcome.
Defined.

(** The same session with the id of a stored product, and a Grocery product
    whose expiry date does not parse. *)
Example add_product_handler_scenarios :
  (InventoryCLI.add_product (B := digits_builtins)
     (sample_session ["1"; "E1"; "Radio"; "25"; "3"; "2"; "Sony"])).2 =
    InventoryCLI.Returned () ∧
  InventoryCLI.inventory
    (InventoryCLI.add_product (B := digits_builtins)
       (sample_session ["1"; "E1"; "Radio"; "25"; "3"; "2"; "Sony"])).1 = sample_store ∧
  last (InventoryCLI.stdout (InventoryCLI.terminal
    (InventoryCLI.add_product (B := digits_builtins)
       (sample_session ["1"; "E1"; "Radio"; "25"; "3"; "2"; "Sony"])).1)) =
    Some (InventoryCLI.nl +:+ "Error: Product with ID E1 already exists in inventory"
          +:+ InventoryCLI.nl) ∧
  (InventoryCLI.add_product (B := digits_builtins)
     (sample_session ["2"; "G9"; "Jam"; "4"; "6"; "next week"])).2 =
    InventoryCLI.Uncaught (ValueError "Unknown string format: next week") ∧
  InventoryCLI.inventory
    (InventoryCLI.add_product (B := digits_builtins)
       (sample_session ["2"; "G9"; "Jam"; "4"; "6"; "next week"])).1 = sample_store.
Proof. split_and!; by vm_compute. Qed.

(** The sweep handler on the sample store, in June 2024. *)
Example remove_expired_scenario :
  InventoryCLI.remove_expired (Date 2024 6 15) (sample_session []) =
    ({| InventoryCLI.inventory :=
          [("E1", acme_tv); ("G2", long_life_rice); ("C1", cotton_shirt)];
        InventoryCLI.running := true;
        InventoryCLI.terminal :=
          {| InventoryCLI.stdin := [];
             InventoryCLI.stdout :=
               [InventoryCLI.nl +:+ "Removed 1 expired products:" +:+ InventoryCLI.nl;
                "- G1" +:+ InventoryCLI.nl] |};
        InventoryCLI.files := ∅ |}, InventoryCLI.Returned ()).
Proof. by vm_compute. Qed.
